(** * logseq-mcp-server: the API client and the two MCP tools

    A shallow embedding of [logseqClient.js] (class [LogSeq]) and of the
    tool handlers of [server.js] ([create_page], [list_pages]), together
    with the part of the JavaScript runtime those two files rely on:
    strings as sequences of UTF-16 code units, JSON values, truthiness,
    [typeof], [String(v)], [JSON.stringify], [Array.prototype.join] and
    [Array.prototype.sort]. *)

From Stdlib Require Import List NArith ZArith Arith Lia Bool Ascii String.
From Stdlib Require Import Sorted Permutation DecimalString.
Import ListNotations.

Set Implicit Arguments.
Set Warnings "-register-all".
Open Scope N_scope.
Open Scope list_scope.

(* ================================================================== *)
(** ** JavaScript strings *)
(* ================================================================== *)

(** A JavaScript string is a sequence of UTF-16 code units; [.length]
    counts code units and [<] compares them one by one. *)
Definition code_unit := N.
Definition jsstring := list code_unit.

(** Source literals are UTF-8 text; [utf16_of_utf8] gives the code units
    the engine holds for them (a surrogate pair above U+FFFF). *)
Fixpoint utf16_of_utf8 (bs : list N) : jsstring :=
  match bs with
  | [] => []
  | b0 :: r0 =>
    if b0 <? 128 then b0 :: utf16_of_utf8 r0
    else if b0 <? 224 then
      match r0 with
      | b1 :: r1 =>
        N.lor (N.shiftl (N.land b0 31) 6) (N.land b1 63) :: utf16_of_utf8 r1
      | _ => bs
      end
    else if b0 <? 240 then
      match r0 with
      | b1 :: b2 :: r2 =>
        N.lor (N.shiftl (N.land b0 15) 12)
              (N.lor (N.shiftl (N.land b1 63) 6) (N.land b2 63))
          :: utf16_of_utf8 r2
      | _ => bs
      end
    else
      match r0 with
      | b1 :: b2 :: b3 :: r3 =>
        let cp := N.lor (N.shiftl (N.land b0 7) 18)
                   (N.lor (N.shiftl (N.land b1 63) 12)
                     (N.lor (N.shiftl (N.land b2 63) 6) (N.land b3 63))) in
        let c := cp - 65536 in
        (55296 + N.shiftr c 10) :: (56320 + N.land c 1023)
          :: utf16_of_utf8 r3
      | _ => bs
      end
  end.

Definition lit (s : string) : jsstring :=
  utf16_of_utf8 (map N_of_ascii (list_ascii_of_string s)).

Definition digits_of_nat (n : nat) : jsstring :=
  lit (NilZero.string_of_uint (Nat.to_uint n)).

Definition digits_of_N (n : N) : jsstring :=
  lit (NilZero.string_of_uint (N.to_uint n)).

Definition digits_of_Z (z : Z) : jsstring :=
  lit (NilZero.string_of_int (Z.to_int z)).

(** [a < b] on strings: the first differing code unit decides, a proper
    prefix is smaller. *)
Fixpoint js_lt (a b : jsstring) : bool :=
  match a, b with
  | [], [] => false
  | [], _ :: _ => true
  | _ :: _, [] => false
  | x :: a', y :: b' =>
    if x <? y then true else if y <? x then false else js_lt a' b'
  end.

Definition js_le (a b : jsstring) : Prop := js_lt b a = false.

Fixpoint jsstring_eqb (a b : jsstring) : bool :=
  match a, b with
  | [], [] => true
  | x :: a', y :: b' => (x =? y) && jsstring_eqb a' b'
  | _, _ => false
  end.

Fixpoint starts_with (p s : jsstring) : bool :=
  match p, s with
  | [], _ => true
  | x :: p', y :: s' => (x =? y) && starts_with p' s'
  | _ :: _, [] => false
  end.

(** [s.includes(p)] *)
Fixpoint includes (s p : jsstring) : bool :=
  starts_with p s ||
  match s with
  | [] => false
  | _ :: s' => includes s' p
  end.

(** [parts.join(sep)] on an array of strings. *)
Fixpoint join (sep : jsstring) (parts : list jsstring) : jsstring :=
  match parts with
  | [] => []
  | [p] => p
  | p :: rest => p ++ sep ++ join sep rest
  end.

(** [Array.prototype.sort()] without a comparator, on an array of
    strings: the elements are ordered by [<] on strings.  The order of
    elements that compare equal is kept. *)
Fixpoint sort_insert (x : jsstring) (l : list jsstring) : list jsstring :=
  match l with
  | [] => [x]
  | y :: l' => if js_lt y x then y :: sort_insert x l' else x :: y :: l'
  end.

Fixpoint Array_sort (l : list jsstring) : list jsstring :=
  match l with
  | [] => []
  | x :: l' => sort_insert x (Array_sort l')
  end.

(* ================================================================== *)
(** ** JavaScript values *)
(* ================================================================== *)

(** What the programs observe of a number: its truthiness ([+0], [-0]
    and [NaN] are falsy), [String(n)], and its JSON text (["null"] for a
    number that is not finite, [String(n)] otherwise). *)
Class JSNumber (num : Type) : Type := {
  num_truthy : num -> bool;
  num_to_string : num -> jsstring;
  num_to_json : num -> jsstring
}.

(** Integers of magnitude below 10^21, which print in plain decimal. *)
#[export] Instance Z_JSNumber : JSNumber Z := {
  num_truthy z := negb (Z.eqb z 0);
  num_to_string := digits_of_Z;
  num_to_json := digits_of_Z
}.

(** An exception; the handlers read nothing but [error.message]. *)
Record js_error : Type := Error { message : jsstring }.

Inductive completion (A : Type) : Type :=
| Normal (a : A)
| Throw (e : js_error).
Arguments Throw {A} e.

Definition cbind {A B} (c : completion A) (k : A -> completion B)
  : completion B :=
  match c with
  | Normal a => k a
  | Throw e => Throw e
  end.

Definition hex_digit (n : N) : code_unit :=
  if n <? 10 then 48 + n else 87 + n.

Definition UnicodeEscape (c : code_unit) : jsstring :=
  [92; 117;
   hex_digit (N.land (N.shiftr c 12) 15); hex_digit (N.land (N.shiftr c 8) 15);
   hex_digit (N.land (N.shiftr c 4) 15); hex_digit (N.land c 15)].

Definition is_high_surrogate (c : code_unit) : bool :=
  (55296 <=? c) && (c <=? 56319).
Definition is_low_surrogate (c : code_unit) : bool :=
  (56320 <=? c) && (c <=? 57343).

Definition escape_unit (c : code_unit) : jsstring :=
  if c =? 8 then [92; 98]
  else if c =? 9 then [92; 116]
  else if c =? 10 then [92; 110]
  else if c =? 12 then [92; 102]
  else if c =? 13 then [92; 114]
  else if c =? 34 then [92; 34]
  else if c =? 92 then [92; 92]
  else if (c <? 32) || is_high_surrogate c || is_low_surrogate c
       then UnicodeEscape c
  else [c].

Fixpoint quote_units (s : jsstring) : jsstring :=
  match s with
  | [] => []
  | c :: r =>
    if is_high_surrogate c then
      match r with
      | d :: r' =>
        if is_low_surrogate d then c :: d :: quote_units r'
        else UnicodeEscape c ++ quote_units r
      | [] => UnicodeEscape c
      end
    else escape_unit c ++ quote_units r
  end.

(** [QuoteJSONString]: the JSON text of a string. *)
Definition QuoteJSONString (s : jsstring) : jsstring :=
  [34] ++ quote_units s ++ [34].

Section Server.

Context {num : Type} `{JSNumber num}.

(** A value as [JSON.parse] builds it, and [undefined].  The fields of an
    object are its own properties in the order [Object.keys] enumerates
    them. *)
Inductive value : Type :=
| VUndefined
| VNull
| VBool (b : bool)
| VNumber (n : num)
| VString (s : jsstring)
| VArray (elements : list value)
| VObject (fields : list (jsstring * value)).

(** ToBoolean *)
Definition truthy (v : value) : bool :=
  match v with
  | VUndefined | VNull => false
  | VBool b => b
  | VNumber n => num_truthy n
  | VString s => match s with [] => false | _ => true end
  | VArray _ | VObject _ => true
  end.

(** [a || b] *)
Definition js_or (a b : value) : value := if truthy a then a else b.

Definition typeof (v : value) : jsstring :=
  match v with
  | VUndefined => lit "undefined"
  | VNull => lit "object"
  | VBool _ => lit "boolean"
  | VNumber _ => lit "number"
  | VString _ => lit "string"
  | VArray _ | VObject _ => lit "object"
  end.

Definition Array_isArray (v : value) : bool :=
  match v with
  | VArray _ => true
  | _ => false
  end.

Fixpoint own_property (k : jsstring) (fs : list (jsstring * value))
  : option value :=
  match fs with
  | [] => None
  | (k', v) :: fs' => if jsstring_eqb k k' then Some v else own_property k fs'
  end.

(** [v[k]] and [v.k], for a key that is neither an array index nor
    ["length"] nor a member of [Object.prototype] or [Array.prototype]:
    the own property of an object, [undefined] on anything else.  The
    handlers read ["journal?"], ["originalName"], ["name"], ["tags"] and
    ["properties"]. *)
Definition Get (v : value) (k : jsstring) : value :=
  match v with
  | VObject fs =>
    match own_property k fs with
    | Some x => x
    | None => VUndefined
    end
  | _ => VUndefined
  end.

Definition TypeError_primitive : js_error :=
  Error (lit "Cannot convert object to primitive value").

(** [elements.join(sep)], given the string conversion of an element:
    [undefined] and [null] give the empty string. *)
Definition Array_join (str : value -> completion jsstring) (sep : jsstring)
  : list value -> completion jsstring :=
  fix go (xs : list value) : completion jsstring :=
    match xs with
    | [] => Normal []
    | x :: rest =>
      cbind (match x with
             | VUndefined | VNull => Normal []
             | _ => str x
             end)
            (fun s =>
               match rest with
               | [] => Normal s
               | _ => cbind (go rest) (fun r => Normal (s ++ sep ++ r))
               end)
    end.

(** [String(v)], which a template literal applies to each [${v}].  A
    plain object answers through [Object.prototype.toString]; an own
    property named [toString] (never callable in parsed JSON) shadows it
    and the conversion throws a [TypeError]. *)
Fixpoint ToString (v : value) : completion jsstring :=
  match v with
  | VUndefined => Normal (lit "undefined")
  | VNull => Normal (lit "null")
  | VBool b => Normal (if b then lit "true" else lit "false")
  | VNumber n => Normal (num_to_string n)
  | VString s => Normal s
  | VArray xs => Array_join ToString (lit ",") xs
  | VObject fs =>
    match own_property (lit "toString") fs with
    | Some _ => Throw TypeError_primitive
    | None => Normal (lit "[object Object]")
    end
  end.

(** [JSON.stringify(v)]; [None] is the [undefined] it returns for
    [undefined]. *)
Fixpoint JSON_stringify (v : value) : option jsstring :=
  match v with
  | VUndefined => None
  | VNull => Some (lit "null")
  | VBool b => Some (if b then lit "true" else lit "false")
  | VNumber n => Some (num_to_json n)
  | VString s => Some (QuoteJSONString s)
  | VArray xs =>
    Some (lit "[" ++
          join (lit ",")
            (map (fun x => match JSON_stringify x with
                           | Some s => s
                           | None => lit "null"
                           end) xs) ++
          lit "]")
  | VObject fs =>
    Some (lit "{" ++
          join (lit ",")
            (flat_map (fun kv => match kv with
                                 | (k, x) =>
                                   match JSON_stringify x with
                                   | Some s => [QuoteJSONString k ++ lit ":" ++ s]
                                   | None => []
                                   end
                                 end) fs) ++
          lit "}")
  end.

(** [`${JSON.stringify(v)}`] *)
Definition stringify_text (v : value) : jsstring :=
  match JSON_stringify v with
  | Some s => s
  | None => lit "undefined"
  end.

Fixpoint index_keys (i : nat) (xs : list value) : list (jsstring * value) :=
  match xs with
  | [] => []
  | x :: rest => (digits_of_nat i, x) :: index_keys (S i) rest
  end.

(** [Object.entries(v)] of an object or an array. *)
Definition Object_entries (v : value) : list (jsstring * value) :=
  match v with
  | VObject fs => fs
  | VArray xs => index_keys 0 xs
  | _ => []
  end.

Definition Object_keys (v : value) : list jsstring :=
  map fst (Object_entries v).

(* ================================================================== *)
(** ** Effects: the log file and the HTTP calls *)
(* ================================================================== *)

Inductive log_level : Type := info | debug | error.

Record log_entry : Type := Log { level : log_level; logged : jsstring }.

(** One [axios.post(url, payload, { headers, timeout })]. *)
Record http_request : Type := Post {
  url : jsstring;
  payload : value;
  headers : list (jsstring * jsstring);
  timeout : N
}.

(** What the [await] of the call yields: a response (axios resolves on a
    2xx status only), or a rejection carrying an error. *)
Inductive http_outcome : Type :=
| Resolved (status : N) (data : value)
| Rejected (e : js_error).

(** The upstream API, as the program sees it. *)
Variable net : http_request -> http_outcome.

(** The lines written to the log so far and the calls made so far, oldest
    first. *)
Record world : Type := World {
  log : list log_entry;
  calls : list http_request
}.

Definition M (A : Type) : Type := world -> completion A * world.

Definition ret {A} (a : A) : M A := fun w => (Normal a, w).

Definition bind {A B} (m : M A) (k : A -> M B) : M B :=
  fun w =>
    match m w with
    | (Normal a, w') => k a w'
    | (Throw e, w') => (Throw e, w')
    end.

Definition throw {A} (e : js_error) : M A := fun w => (Throw e, w).

Definition try_catch {A} (body : M A) (handler : js_error -> M A) : M A :=
  fun w =>
    match body w with
    | (Normal a, w') => (Normal a, w')
    | (Throw e, w') => handler e w'
    end.

Definition lift {A} (c : completion A) : M A := fun w => (c, w).

Notation "x <- m ;; k" := (bind m (fun x => k))
  (at level 61, m at next level, right associativity).
Notation "m ;; k" := (bind m (fun _ => k))
  (at level 61, right associativity).

Definition write_log (l : log_level) (msg : jsstring) : M unit :=
  fun w => (Normal tt, World (log w ++ [Log l msg]) (calls w)).

Definition logger_info := write_log info.
Definition logger_debug := write_log debug.
Definition logger_error := write_log error.

Definition axios_post (u : jsstring) (body : value)
           (hs : list (jsstring * jsstring)) (t : N) : M (N * value) :=
  fun w =>
    let w' := World (log w) (calls w ++ [Post u body hs t]) in
    match net (Post u body hs t) with
    | Resolved st d => (Normal (st, d), w')
    | Rejected e => (Throw e, w')
    end.

(* ================================================================== *)
(** ** logseqClient.js *)
(* ================================================================== *)

Record LogSeq : Type := {
  apiKey : jsstring;
  host : jsstring;
  port : N
}.

(** [new LogSeq(apiKey, host = "127.0.0.1", port = 12315)] *)
Definition LogSeq_new (key : jsstring) (h : option jsstring) (p : option N)
  : M LogSeq :=
  let h' := match h with Some x => x | None => lit "127.0.0.1" end in
  let p' := match p with Some x => x | None => 12315 end in
  logger_debug (lit "LogSeq client initialized with host=" ++ h' ++
                lit ", port=" ++ digits_of_N p') ;;
  ret {| apiKey := key; host := h'; port := p' |}.

Definition getBaseUrl (this : LogSeq) : M jsstring :=
  let u := lit "http://" ++ host this ++ lit ":" ++ digits_of_N (port this)
           ++ lit "/api" in
  logger_debug (lit "Base URL: " ++ u) ;;
  ret u.

Definition getHeaders (this : LogSeq) : list (jsstring * jsstring) :=
  [(lit "Authorization", lit "Bearer " ++ apiKey this);
   (lit "Content-Type", lit "application/json")].

Definition createPage_payload (title content : jsstring) : value :=
  VObject [(lit "method", VString (lit "logseq.Editor.insertBlock"));
           (lit "args", VArray [VString title; VString content;
                                VObject [(lit "isPageBlock", VBool true)]])].

Definition createPage (this : LogSeq) (title content : jsstring) : M value :=
  u <- getBaseUrl this ;;
  logger_info (lit "Creating page '" ++ title ++ lit "'") ;;
  let payload := createPage_payload title content in
  logger_debug (lit "Request payload: " ++ stringify_text payload) ;;
  try_catch
    (response <- axios_post u payload (getHeaders this) 6000 ;;
     logger_debug (lit "Response status: " ++ digits_of_N (fst response)) ;;
     ret (snd response))
    (fun err =>
       logger_error (lit "Error creating page: " ++ message err) ;;
       throw err).

Definition listPages_payload : value :=
  VObject [(lit "method", VString (lit "logseq.Editor.getAllPages"))].

Definition listPages (this : LogSeq) : M value :=
  u <- getBaseUrl this ;;
  logger_info (lit "Listing all pages") ;;
  let payload := listPages_payload in
  logger_debug (lit "Request payload: " ++ stringify_text payload) ;;
  try_catch
    (response <- axios_post u payload (getHeaders this) 6000 ;;
     logger_debug (lit "Response status: " ++ digits_of_N (fst response)) ;;
     ret (snd response))
    (fun err =>
       logger_error (lit "Error listing pages: " ++ message err) ;;
       throw err).

(* ================================================================== *)
(** ** server.js: the tool handlers *)
(* ================================================================== *)

Record content_item : Type := { type : jsstring; text : jsstring }.

(** The object a handler returns; [isError] is [None] where the object
    has no such key. *)
Record tool_result : Type := {
  isError : option bool;
  content : list content_item
}.

Definition text_item (t : jsstring) : content_item :=
  {| type := lit "text"; text := t |}.

(** Whether a client reads the result as an error. *)
Definition is_error (r : tool_result) : bool :=
  match isError r with
  | Some true => true
  | _ => false
  end.

(** The text of the result: its content items, in order. *)
Definition result_text (r : tool_result) : list jsstring :=
  map text (content r).

Definition create_page (client : LogSeq) (title content : jsstring)
  : M tool_result :=
  logger_info (lit "Creating page with title: " ++ title) ;;
  try_catch
    (result <- createPage client title content ;;
     logger_info (lit "Successfully created page") ;;
     logger_debug (lit "API response: " ++ stringify_text result) ;;
     ret {| isError := None;
            content := [text_item (lit "Successfully created page '" ++
                                   title ++ lit "'")] |})
    (fun err =>
       logger_error (lit "Failed to create page: " ++ message err) ;;
       ret {| isError := Some true;
              content := [text_item (lit "Failed to create page: " ++
                                     message err)] |}).

(** The three locals of the [list_pages] loop. *)
Record listing : Type := {
  pagesInfo : list jsstring;
  totalPages : nat;
  journalPages : nat
}.

(** [!page || typeof page !== 'object'] *)
Definition invalid_page (page : value) : bool :=
  negb (truthy page) || negb (jsstring_eqb (typeof page) (lit "object")).

(** [page['journal?'] || false], in both versions of the handler. *)
Definition isJournal (page : value) : value :=
  js_or (Get page (lit "journal?")) (VBool false).

(** [page.originalName || page.name || '<unknown>'] *)
Definition page_name (page : value) : value :=
  js_or (js_or (Get page (lit "originalName")) (Get page (lit "name")))
        (VString (lit "<unknown>")).

(** The elements of an array value. *)
Definition elements (v : value) : list value :=
  match v with
  | VArray xs => xs
  | _ => []
  end.

(** [Array.isArray(page.tags) ? page.tags : []] *)
Definition page_tags (page : value) : value :=
  if Array_isArray (Get page (lit "tags"))
  then Get page (lit "tags")
  else VArray [].

(** [page.properties && typeof page.properties === 'object'
      ? page.properties : {}] *)
Definition page_properties (page : value) : value :=
  if truthy (Get page (lit "properties")) &&
     jsstring_eqb (typeof (Get page (lit "properties"))) (lit "object")
  then Get page (lit "properties")
  else VObject [].

(** [entries.map(([k, v]) => `${k}: ${v}`)] *)
Fixpoint render_entries (es : list (jsstring * value))
  : completion (list jsstring) :=
  match es with
  | [] => Normal []
  | (k, v) :: rest =>
    cbind (ToString v) (fun s =>
    cbind (render_entries rest) (fun r =>
    Normal ((k ++ lit ": " ++ s) :: r)))
  end.

(** The line of a displayed page: [infoParts.join(" ")]. *)
Definition page_info (page : value) : completion jsstring :=
  let name := page_name page in
  let tags := page_tags page in
  let properties := page_properties page in
  cbind (ToString name) (fun name_text =>
  let infoParts := [lit "- " ++ name_text] in
  let infoParts :=
    if truthy (isJournal page) then infoParts ++ [lit "📅"] else infoParts in
  cbind (if (0 <? List.length (elements tags))%nat
         then cbind (Array_join ToString (lit ", ") (elements tags)) (fun t =>
              Normal (infoParts ++ [lit "🏷️ " ++ t]))
         else Normal infoParts) (fun infoParts =>
  cbind (if (0 <? List.length (Object_keys properties))%nat
         then cbind (render_entries (Object_entries properties)) (fun ps =>
              Normal (infoParts ++ [lit "📝 " ++ join (lit ", ") ps]))
         else Normal infoParts) (fun infoParts =>
  Normal (join (lit " ") infoParts)))).

(** One turn of [for (const page of result)]. *)
Definition page_step (include_journals : bool) (acc : listing) (page : value)
  : M listing :=
  if invalid_page page then
    logger_error (lit "Invalid page object in response: " ++
                  stringify_text page) ;;
    ret acc
  else if truthy (isJournal page) && negb include_journals then
    ret {| pagesInfo := pagesInfo acc;
           totalPages := totalPages acc;
           journalPages := S (journalPages acc) |}
  else
    line <- lift (page_info page) ;;
    ret {| pagesInfo := pagesInfo acc ++ [line];
           totalPages := S (totalPages acc);
           journalPages := journalPages acc |}.

Fixpoint for_of (include_journals : bool) (acc : listing)
         (result : list value) : M listing :=
  match result with
  | [] => ret acc
  | page :: rest =>
    acc' <- page_step include_journals acc page ;;
    for_of include_journals acc' rest
  end.

Definition summary (include_journals : bool) (l : listing) : list jsstring :=
  [lit "LogSeq Pages:"; lit ""] ++
  pagesInfo l ++
  [lit "";
   lit "📊 Statistics:";
   lit "- Total pages shown: " ++ digits_of_nat (totalPages l);
   if include_journals
   then lit "- Journal pages: " ++ digits_of_nat (journalPages l)
   else lit "- Journal pages: " ++ digits_of_nat (journalPages l) ++
        lit " (hidden)"].

Definition newline : jsstring := [10].

Definition list_pages (client : LogSeq) (include_journals : bool)
  : M tool_result :=
  logger_info (lit "Listing pages") ;;
  try_catch
    (result <- listPages client ;;
     logger_debug (lit "Raw API response: " ++ stringify_text result) ;;
     if negb (Array_isArray result) then
       throw (Error (lit
         "Invalid response from LogSeq API: Expected an array of pages"))
     else
       l <- for_of include_journals
              {| pagesInfo := []; totalPages := 0; journalPages := 0 |}
              (elements result) ;;
       let l := {| pagesInfo := Array_sort (pagesInfo l);
                   totalPages := totalPages l;
                   journalPages := journalPages l |} in
       logger_info (lit "Found " ++ digits_of_nat (totalPages l) ++
                    lit " pages" ++
                    (if include_journals then lit ""
                     else lit " (excluding journals)")) ;;
       ret {| isError := None;
              content := [text_item (join newline
                                       (summary include_journals l))] |})
    (fun err =>
       logger_error (lit "Failed to list pages: " ++ message err) ;;
       ret {| isError := Some true;
              content := [text_item (lit "Failed to list pages: " ++
                                     message err)] |}).

(* ================================================================== *)
(** ** server.js: the argument schemas *)
(* ================================================================== *)

Inductive zod_issue : Type :=
| invalid_type
| too_small (msg : jsstring)
| too_big (msg : jsstring).

Definition js_length (s : jsstring) : N := N.of_nat (List.length s).

(** [z.string().min(lo, lo_msg).max(hi, hi_msg)] *)
Definition z_string_min_max (lo : N) (lo_msg : jsstring)
           (hi : N) (hi_msg : jsstring) (v : value) : list zod_issue :=
  match v with
  | VString s =>
    (if js_length s <? lo then [too_small lo_msg] else []) ++
    (if hi <? js_length s then [too_big hi_msg] else [])
  | _ => [invalid_type]
  end.

Definition title_schema : value -> list zod_issue :=
  z_string_min_max 1 (lit "Title cannot be empty")
                   1000 (lit "Title is too long").

Definition content_schema : value -> list zod_issue :=
  z_string_min_max 1 (lit "Content cannot be empty")
                   1000000 (lit "Content is too long").

(** The issues of [{ title, content }] against the schema of
    [create_page]. *)
Definition create_page_issues (title content : value) : list zod_issue :=
  title_schema title ++ content_schema content.

(** [z.boolean().optional().default(false)]: the parsed value of the
    argument [include_journals]. *)
Definition include_journals_schema (v : value) : zod_issue + bool :=
  match v with
  | VUndefined => inr false
  | VBool b => inr b
  | _ => inl invalid_type
  end.

(** Modelled from the spec: the tool front end ([McpServer.tool] of the
    MCP SDK, which is not part of the sources).  It checks the arguments
    against the registered schema before the handler runs; a validation
    failure is reported as a structured tool error and the handler is not
    called.  [describe] stands for the text the front end puts in that
    error. *)
Definition call_create_page (describe : list zod_issue -> jsstring)
           (client : LogSeq) (title content : value) : M tool_result :=
  match create_page_issues title content, title, content with
  | [], VString t, VString c => create_page client t c
  | issues, _, _ =>
    ret {| isError := Some true; content := [text_item (describe issues)] |}
  end.

(* ================================================================== *)
(** ** Vocabulary of the statements *)
(* ================================================================== *)

(** The URL every call goes to. *)
Definition api_url (this : LogSeq) : jsstring :=
  lit "http://" ++ host this ++ lit ":" ++ digits_of_N (port this) ++
  lit "/api".

(** The call [createPage] makes, and the one [listPages] makes. *)
Definition createPage_request (this : LogSeq) (title content : jsstring)
  : http_request :=
  Post (api_url this) (createPage_payload title content) (getHeaders this)
       6000.

Definition listPages_request (this : LogSeq) : http_request :=
  Post (api_url this) listPages_payload (getHeaders this) 6000.

(** An element the loop turns into a line, and one it only counts. *)
Definition displayed (include_journals : bool) (page : value) : bool :=
  negb (invalid_page page) &&
  negb (truthy (isJournal page) && negb include_journals).

Definition hidden (include_journals : bool) (page : value) : bool :=
  negb (invalid_page page) &&
  (truthy (isJournal page) && negb include_journals).

(** The lines of a sequence of pages, in order; the first conversion
    that throws decides. *)
Fixpoint composed_lines (pages : list value) : completion (list jsstring) :=
  match pages with
  | [] => Normal []
  | page :: rest =>
    cbind (page_info page) (fun line =>
    cbind (composed_lines rest) (fun r => Normal (line :: r)))
  end.

(** The log line of an element the guard rejects. *)
Definition invalid_page_entry (page : value) : log_entry :=
  Log error (lit "Invalid page object in response: " ++ stringify_text page).

Definition is_error_entry (e : log_entry) : bool :=
  match level e with
  | error => true
  | _ => false
  end.

(** Whether the page carries ["journal?": true]. *)
Definition journal_true (page : value) : bool :=
  match Get page (lit "journal?") with
  | VBool true => true
  | _ => false
  end.

(** What the client writes to the log around its call. *)
Definition client_log (this : LogSeq) (start : jsstring) (body : value)
           (failed : jsstring) (o : http_outcome) : list log_entry :=
  [Log debug (lit "Base URL: " ++ api_url this);
   Log info start;
   Log debug (lit "Request payload: " ++ stringify_text body);
   match o with
   | Resolved st _ => Log debug (lit "Response status: " ++ digits_of_N st)
   | Rejected e => Log error (failed ++ message e)
   end].

Definition outcome_completion (o : http_outcome) : completion value :=
  match o with
  | Resolved _ d => Normal d
  | Rejected e => Throw e
  end.

(** The message of the error [list_pages] throws at a result that is
    not an array. *)
Definition not_an_array : jsstring :=
  lit "Invalid response from LogSeq API: Expected an array of pages".

(** The two shapes of result the handlers build. *)
Definition text_result (t : jsstring) : tool_result :=
  {| isError := None; content := [text_item t] |}.

Definition error_result (t : jsstring) : tool_result :=
  {| isError := Some true; content := [text_item t] |}.

(** The call of [createPage] as the specification words it, with the
    method named [insertBlock]. *)
Definition spec_createPage_request (this : LogSeq) (title content : jsstring)
  : http_request :=
  Post (api_url this)
       (VObject [(lit "method", VString (lit "insertBlock"));
                 (lit "args", VArray [VString title; VString content;
                                      VObject [(lit "isPageBlock",
                                                VBool true)]])])
       (getHeaders this) 6000.

(** The text the specification gives for a result that is not a
    sequence. *)
Definition spec_not_a_sequence : jsstring :=
  lit "Invalid response: expected a sequence of pages".

(** A value that is neither an object nor an array. *)
Definition not_object (v : value) : bool :=
  match v with
  | VArray _ | VObject _ => false
  | _ => true
  end.

(** The state of the loop before its first turn. *)
Definition no_pages : listing :=
  {| pagesInfo := []; totalPages := 0; journalPages := 0 |}.

(** A structured record, a mapping: a JSON object. *)
Definition is_record (v : value) : bool :=
  match v with
  | VObject _ => true
  | _ => false
  end.

(* ================================================================== *)
(** ** server.js: start-up *)
(* ================================================================== *)

(** [process.env.LOGSEQ_API_TOKEN]: a string, or [undefined] when the
    variable is not set. *)
Definition env_value (token : option jsstring) : value :=
  match token with
  | Some s => VString s
  | None => VUndefined
  end.

Definition token_required : js_error :=
  Error (lit "LOGSEQ_API_TOKEN environment variable required").

(** The top level of the module up to the client: the token is checked,
    then [new LogSeq(apiKey)].  A throw here is an uncaught exception at
    load time. *)
Definition startup (token : option jsstring) : M LogSeq :=
  let apiKey := env_value token in
  if negb (truthy apiKey) then throw token_required
  else
    match apiKey with
    | VString key => LogSeq_new key None None
    | _ => throw token_required
    end.



(** A page whose name, tags and property values are all [null],
    booleans, numbers or strings (or absent). *)
Definition plain_page (page : value) : bool :=
  not_object (page_name page) &&
  forallb not_object (elements (page_tags page)) &&
  forallb (fun kv => not_object (snd kv))
          (Object_entries (page_properties page)).

End Server.

Arguments VUndefined {num}.
Arguments VNull {num}.
Arguments VBool {num} b.
Arguments VString {num} s.
Arguments VArray {num} elements.
Arguments VObject {num} fields.

(* ================================================================== *)
(** ** The server with the client inline (src/server.js) *)
(* ================================================================== *)

(** This version of the server carries its own copy of the class
    [LogSeq], word for word that of [logseqClient.js]; its handlers differ
    from the ones above. *)
Module ServerJs.
Section Handlers.

Context {num : Type} `{JSNumber num}.
Variable net : @http_request num -> @http_outcome num.

(** [apiKey.substring(0, 5)] *)
Definition substring_0_5 (s : jsstring) : jsstring := firstn 5 s.

(** The top level up to the client: the token is checked and reported,
    then [new LogSeq(apiKey)]. *)
Definition startup (token : option jsstring) : @M num LogSeq :=
  let apiKey := @env_value num token in
  if negb (truthy apiKey) then throw token_required
  else
    match apiKey with
    | VString key =>
      bind (logger_info (lit "Found LOGSEQ_API_TOKEN in environment"))
        (fun _ =>
      bind (logger_debug (lit "API Token starts with: " ++
                          substring_0_5 key ++ lit "..."))
        (fun _ => LogSeq_new key None None))
    | _ => throw token_required
    end.

(** The handler of [create_page]: a failure of the client is logged and
    thrown again. *)
Definition create_page (client : LogSeq) (title content : jsstring)
  : @M num tool_result :=
  bind (logger_info (lit "Creating page with title: " ++ title)) (fun _ =>
  try_catch
    (bind (createPage net client title content) (fun result =>
     bind (logger_info (lit "Successfully created page")) (fun _ =>
     bind (logger_debug (lit "API response: " ++ stringify_text result))
       (fun _ =>
     ret {| isError := None;
            content := [text_item (lit "Successfully created page '" ++
                                   title ++ lit "'")] |}))))
    (fun err =>
       bind (logger_error (lit "Failed to create page: " ++ message err))
         (fun _ => throw err))).

End Handlers.

Section ListPages.

Context {num : Type} `{JSNumber num}.
Variable net : @http_request num -> @http_outcome num.

(** What the handler of [list_pages] asks of the engine beyond the
    runtime above: [n > 0] on a number, [Number(s) > 0] on a string, and
    the [TypeError]s thrown for a value that is not iterable, for a
    property read on [null] or [undefined], and for a call of something
    that is not a function. *)
Variable num_positive : num -> bool.
Variable string_positive : jsstring -> bool.
Variable not_iterable : @value num -> js_error.
Variable cannot_read : @value num -> jsstring -> js_error.
Variable not_a_function : @value num -> jsstring -> js_error.

(** The strings a string yields to [for...of]: its code points. *)
Fixpoint code_points (s : jsstring) : list jsstring :=
  match s with
  | [] => []
  | c :: r =>
    if is_high_surrogate c then
      match r with
      | d :: r' =>
        if is_low_surrogate d then [c; d] :: code_points r'
        else [c] :: code_points r
      | [] => [[c]]
      end
    else [c] :: code_points r
  end.

(** What [for (const page of result)] runs over. *)
Definition iterate (result : @value num) : completion (list (@value num)) :=
  match result with
  | VArray xs => Normal xs
  | VString s => Normal (map VString (code_points s))
  | _ => Throw (not_iterable result)
  end.

(** [v > 0]: an array or an object is first converted to a string. *)
Definition positive (v : @value num) : completion bool :=
  match v with
  | VUndefined | VNull => Normal false
  | VBool b => Normal b
  | VNumber n => Normal (num_positive n)
  | VString s => Normal (string_positive s)
  | VArray _ | VObject _ =>
    cbind (ToString v) (fun s => Normal (string_positive s))
  end.

(** [tags.length > 0] *)
Definition length_positive (tags : @value num) : completion bool :=
  match tags with
  | VArray xs => Normal (0 <? List.length xs)%nat
  | VString s => Normal (0 <? List.length s)%nat
  | VObject _ => positive (Get tags (lit "length"))
  | _ => Normal false
  end.

(** [tags.join(', ')] *)
Definition join_tags (tags : @value num) : completion jsstring :=
  match tags with
  | VArray xs => Array_join ToString (lit ", ") xs
  | _ => Throw (not_a_function tags (lit "join"))
  end.

(** [Object.entries(properties)] of any value but [null] and
    [undefined]: a string has its code units under their indices. *)
Definition entries_of (v : @value num) : list (jsstring * @value num) :=
  match v with
  | VObject fs => fs
  | VArray xs => index_keys 0 xs
  | VString s => index_keys 0 (map (fun c => VString [c]) s)
  | _ => []
  end.

(** [page.tags || []] *)
Definition page_tags (page : @value num) : @value num :=
  js_or (Get page (lit "tags")) (VArray []).

(** [page.properties || {}] *)
Definition page_properties (page : @value num) : @value num :=
  js_or (Get page (lit "properties")) (VObject []).

(** The line of a page: [infoParts.join(" ")]. *)
Definition page_info (page : @value num) : completion jsstring :=
  let name := page_name page in
  let tags := page_tags page in
  let properties := page_properties page in
  cbind (ToString name) (fun name_text =>
  let infoParts := [lit "- " ++ name_text] in
  cbind (length_positive tags) (fun has_tags =>
  cbind (if has_tags
         then cbind (join_tags tags) (fun t =>
              Normal (infoParts ++ [lit "(tags: " ++ t ++ lit ")"]))
         else Normal infoParts) (fun infoParts =>
  cbind (if (0 <? List.length (map fst (entries_of properties)))%nat
         then cbind (render_entries (entries_of properties)) (fun props =>
              Normal (infoParts ++
                      [lit "[" ++ join (lit ", ") props ++ lit "]"]))
         else Normal infoParts) (fun infoParts =>
  let infoParts :=
    if truthy (isJournal page) then infoParts ++ [lit "[journal]"]
    else infoParts in
  Normal (join (lit " ") infoParts))))).

(** One turn of [for (const page of result)]. *)
Definition page_step (include_journals : bool) (pagesInfo : list jsstring)
           (page : @value num) : @M num (list jsstring) :=
  match page with
  | VUndefined | VNull => throw (cannot_read page (lit "journal?"))
  | _ =>
    if truthy (isJournal page) && negb include_journals then ret pagesInfo
    else bind (lift (page_info page)) (fun line =>
         ret (pagesInfo ++ [line]))
  end.

Fixpoint for_of (include_journals : bool) (pagesInfo : list jsstring)
         (pages : list (@value num)) : @M num (list jsstring) :=
  match pages with
  | [] => ret pagesInfo
  | page :: rest =>
    bind (page_step include_journals pagesInfo page) (fun pagesInfo' =>
    for_of include_journals pagesInfo' rest)
  end.

(** The text of the response, from the sorted lines. *)
Definition response (include_journals : bool) (pagesInfo : list jsstring)
  : jsstring :=
  let countMsg :=
    newline ++ lit "Total pages: " ++ digits_of_nat (List.length pagesInfo) in
  let journalMsg :=
    if include_journals then lit " (including journal pages)"
    else lit " (excluding journal pages)" in
  (lit "LogSeq Pages:" ++ newline ++ newline) ++
  join newline pagesInfo ++ countMsg ++ journalMsg.

(** The handler of [list_pages]: whatever is thrown is logged and thrown
    again. *)
Definition list_pages (client : LogSeq) (include_journals : bool)
  : @M num tool_result :=
  bind (logger_info (lit "Listing pages")) (fun _ =>
  try_catch
    (bind (listPages net client) (fun result =>
     bind (logger_debug (lit "Raw API response: " ++ stringify_text result))
       (fun _ =>
     bind (lift (iterate result)) (fun pages =>
     bind (for_of include_journals [] pages) (fun pagesInfo =>
     let pagesInfo := Array_sort pagesInfo in
     bind (logger_info (lit "Found " ++
                        digits_of_nat (List.length pagesInfo) ++
                        lit " pages")) (fun _ =>
     ret {| isError := None;
            content := [text_item (response include_journals pagesInfo)]
         |}))))))
    (fun err =>
       bind (logger_error (lit "Failed to list pages: " ++ message err))
         (fun _ => throw err))).

(** The lines of a sequence of pages, in order. *)
Fixpoint composed_lines (pages : list (@value num))
  : completion (list jsstring) :=
  match pages with
  | [] => Normal []
  | page :: rest =>
    cbind (page_info page) (fun line =>
    cbind (composed_lines rest) (fun r => Normal (line :: r)))
  end.

(** [null] and [undefined], on which a property cannot be read. *)
Definition nullish (v : @value num) : bool :=
  match v with
  | VUndefined | VNull => true
  | _ => false
  end.

End ListPages.
End ServerJs.

(* ================================================================== *)
(** ** Sample inputs *)
(* ================================================================== *)

Definition sample_client : LogSeq :=
  {| apiKey := lit "secret"; host := lit "127.0.0.1"; port := 12315 |}.

Definition fresh : @world Z := World [] [].

Definition page_named (n : string) : @value Z :=
  VObject [(lit "name", VString (lit n))].

Definition journal_named (n : string) : @value Z :=
  VObject [(lit "name", VString (lit n)); (lit "journal?", VBool true)].

(** Three pages, one of them a journal. *)
Definition three_pages : list (@value Z) :=
  [page_named "Alpha"; journal_named "2024-01-01"; page_named "Beta"].

(** Two pages around an array, which is not a record. *)
Definition pages_around_array : list (@value Z) :=
  [page_named "A"; VArray []; page_named "B"].

(** Two pages around a number. *)
Definition pages_around_number : list (@value Z) :=
  [page_named "A"; VNumber 42%Z; page_named "B"].

(** A page whose properties are an array. *)
Definition page_array_properties : @value Z :=
  VObject [(lit "name", VString (lit "A"));
           (lit "properties", VArray [VString (lit "x")])].

(** A page whose journal flag is the number 1. *)
Definition page_flag_one : @value Z :=
  VObject [(lit "name", VString (lit "J")); (lit "journal?", VNumber 1%Z)].

(** A page whose tags are a string and whose properties are a number. *)
Definition page_scalar_fields : @value Z :=
  VObject [(lit "name", VString (lit "N"));
           (lit "tags", VString (lit "t"));
           (lit "properties", VNumber 5%Z)].

(** A page whose journal flag is the number 0. *)
Definition page_flag_zero : @value Z :=
  VObject [(lit "name", VString (lit "P")); (lit "journal?", VNumber 0%Z)].

(** A journal page named [a] and a page named [a !]. *)
Definition two_close_names : list (@value Z) :=
  [journal_named "a"; page_named "a !"].

(** Pages as the upstream shapes them: names, tags and properties. *)
Definition shaped_pages : list (@value Z) :=
  [VObject [(lit "originalName", VString (lit "Projects"));
            (lit "name", VString (lit "projects"));
            (lit "tags", VArray [VString (lit "work"); VString (lit "2024")]);
            (lit "properties", VObject [(lit "status", VString (lit "open"));
                                        (lit "rank", VNumber 2%Z)])];
   journal_named "2024-01-01";
   VNull;
   page_named "Inbox"].

(** The same pages in another order. *)
Definition shaped_pages_shuffled : list (@value Z) :=
  [page_named "Inbox";
   VNull;
   VObject [(lit "originalName", VString (lit "Projects"));
            (lit "name", VString (lit "projects"));
            (lit "tags", VArray [VString (lit "work"); VString (lit "2024")]);
            (lit "properties", VObject [(lit "status", VString (lit "open"));
                                        (lit "rank", VNumber 2%Z)])];
   journal_named "2024-01-01"].

(** A page with string tags and nothing else. *)
Definition page_tagged : @value Z :=
  VObject [(lit "name", VString (lit "Ideas"));
           (lit "tags", VArray [VString (lit "a"); VString (lit "b")]);
           (lit "properties", VObject [])].

(** A page whose name cannot be converted, then a number. *)
Definition unconvertible_then_number : list (@value Z) :=
  [VObject [(lit "name", VObject [(lit "toString", VNull)])];
   VNumber 42%Z].

(** A page named [n] whose journal flag is [flag]. *)
Definition page_flagged (n : string) (flag : @value Z) : @value Z :=
  VObject [(lit "name", VString (lit n)); (lit "journal?", flag)].

(** Pages with flags of every kind, one page without a flag, and a
    string, which is not a page. *)
Definition flagged_pages : list (@value Z) :=
  [page_flagged "one" (VNumber 1%Z);
   page_flagged "text" (VString (lit "yes"));
   page_flagged "true" (VBool true);
   page_flagged "false" (VBool false);
   page_flagged "zero" (VNumber 0%Z);
   page_flagged "empty" (VString (lit ""));
   page_flagged "null" VNull;
   page_named "none";
   VString (lit "stray")].

(** The engine on the samples: [n > 0] on integers, [Number(s) > 0] on
    strings of decimal digits, and the messages of the errors. *)
Definition sample_num_positive (z : Z) : bool := (0 <? z)%Z.

Definition sample_string_positive (s : jsstring) : bool :=
  match s with
  | [] => false
  | _ => forallb (fun c => (48 <=? c) && (c <=? 57)) s &&
         existsb (fun c => negb (c =? 48)) s
  end.

Definition sample_not_iterable (v : @value Z) : js_error :=
  Error (lit "result is not iterable").

Definition sample_cannot_read (v : @value Z) (k : jsstring) : js_error :=
  Error (lit "Cannot read properties of " ++
         (match v with VNull => lit "null" | _ => lit "undefined" end) ++
         lit " (reading '" ++ k ++ lit "')").

Definition sample_not_a_function (v : @value Z) (k : jsstring) : js_error :=
  Error (lit "tags." ++ k ++ lit " is not a function").

(** A client with another token. *)
Definition other_client : LogSeq :=
  {| apiKey := lit "another-token"; host := lit "127.0.0.1"; port := 12315 |}.

(** An upstream that answers every call with [data]. *)
Definition answers (data : @value Z) : @http_request Z -> @http_outcome Z :=
  fun _ => Resolved 200 data.

(** An upstream that cannot be reached. *)
Definition unreachable : @http_request Z -> @http_outcome Z :=
  fun _ => Rejected (Error (lit "Network Error")).

(** A front end that names the first issue only. *)
Definition first_issue (issues : list zod_issue) : jsstring :=
  match issues with
  | too_small msg :: _ | too_big msg :: _ => msg
  | _ => lit "Invalid arguments"
  end.

(* ================================================================== *)
(** ** The order on strings and the sort *)
(* ================================================================== *)

Lemma js_lt_irrefl (a : jsstring) : js_lt a a = false.
Proof.
  induction a as [|x a IH]; simpl; [reflexivity|].
  now rewrite N.ltb_irrefl.
Qed.

Lemma js_lt_asym (a b : jsstring) : js_lt a b = true -> js_lt b a = false.
Proof.
  revert b; induction a as [|x a IH]; intros [|y b]; simpl; try easy.
  destruct (x <? y) eqn:Hxy.
  - intros _. apply N.ltb_lt in Hxy.
    destruct (y <? x) eqn:Hyx; [apply N.ltb_lt in Hyx; lia|reflexivity].
  - destruct (y <? x) eqn:Hyx; [discriminate|]. apply IH.
Qed.

Lemma js_lt_total (a b : jsstring) :
  js_lt a b = false -> js_lt b a = false -> a = b.
Proof.
  revert b; induction a as [|x a IH]; intros [|y b]; simpl; try easy.
  destruct (x <? y) eqn:Hxy; [discriminate|].
  destruct (y <? x) eqn:Hyx; [discriminate|].
  intros Hab Hba.
  apply N.ltb_ge in Hxy, Hyx.
  assert (x = y) by lia; subst y.
  f_equal. now apply IH.
Qed.

Lemma js_lt_trans (a b c : jsstring) :
  js_lt a b = true -> js_lt b c = true -> js_lt a c = true.
Proof.
  revert b c; induction a as [|x a IH]; intros [|y b] [|z c]; simpl; try easy.
  destruct (x <? y) eqn:Hxy.
  - apply N.ltb_lt in Hxy. intros _.
    destruct (y <? z) eqn:Hyz.
    + apply N.ltb_lt in Hyz. intros _.
      assert (Hxz : (x <? z) = true) by (apply N.ltb_lt; lia).
      now rewrite Hxz.
    + destruct (z <? y) eqn:Hzy; [discriminate|].
      apply N.ltb_ge in Hyz, Hzy. intros _.
      assert (Hxz : (x <? z) = true) by (apply N.ltb_lt; lia).
      now rewrite Hxz.
  - destruct (y <? x) eqn:Hyx; [discriminate|].
    apply N.ltb_ge in Hxy, Hyx. assert (x = y) by lia; subst y.
    intros Hab.
    destruct (x <? z) eqn:Hxz; [reflexivity|].
    destruct (z <? x) eqn:Hzx; [discriminate|].
    now apply IH.
Qed.

Lemma js_le_refl (a : jsstring) : js_le a a.
Proof. apply js_lt_irrefl. Qed.

Lemma js_le_trans (a b c : jsstring) : js_le a b -> js_le b c -> js_le a c.
Proof.
  unfold js_le. intros Hab Hbc.
  destruct (js_lt c a) eqn:Hca; [|reflexivity].
  destruct (js_lt a b) eqn:Hlt.
  - now rewrite (js_lt_trans _ _ _ Hca Hlt) in Hbc.
  - assert (a = b) by now apply js_lt_total. subst b. congruence.
Qed.

Lemma js_le_antisym (a b : jsstring) : js_le a b -> js_le b a -> a = b.
Proof. unfold js_le. intros Hab Hba. now apply js_lt_total. Qed.

Lemma sort_insert_perm (x : jsstring) (l : list jsstring) :
  Permutation (x :: l) (sort_insert x l).
Proof.
  induction l as [|y l IH]; simpl; [reflexivity|].
  destruct (js_lt y x); [|reflexivity].
  rewrite perm_swap. now apply perm_skip.
Qed.

Lemma Array_sort_perm (l : list jsstring) : Permutation l (Array_sort l).
Proof.
  induction l as [|x l IH]; simpl; [constructor|].
  rewrite <- sort_insert_perm. now apply perm_skip.
Qed.

Lemma sort_insert_hd (x a : jsstring) (l : list jsstring) :
  js_le a x -> HdRel js_le a l -> HdRel js_le a (sort_insert x l).
Proof.
  intros Hax Hl. destruct l as [|y l]; simpl; [now constructor|].
  destruct (js_lt y x); constructor; [now inversion Hl|assumption].
Qed.

Lemma sort_insert_sorted (x : jsstring) (l : list jsstring) :
  Sorted js_le l -> Sorted js_le (sort_insert x l).
Proof.
  induction 1 as [|y l Hs IH Hhd]; simpl; [repeat constructor|].
  destruct (js_lt y x) eqn:Hyx.
  - constructor; [assumption|].
    apply sort_insert_hd; [|assumption]. now apply js_lt_asym.
  - constructor; [now constructor|]. now constructor.
Qed.

Lemma Array_sort_sorted (l : list jsstring) : Sorted js_le (Array_sort l).
Proof.
  induction l as [|x l IH]; simpl; [constructor|].
  now apply sort_insert_sorted.
Qed.

Lemma Array_sort_length_eq (l : list jsstring) :
  List.length (Array_sort l) = List.length l.
Proof. symmetry. apply Permutation_length, Array_sort_perm. Qed.

(** Whatever algorithm the engine runs, the result of the sort is
    determined: a sorted rearrangement of an array of strings is unique. *)
Lemma sorted_perm_unique (l1 l2 : list jsstring) :
  Sorted js_le l1 -> Sorted js_le l2 -> Permutation l1 l2 -> l1 = l2.
Proof.
  intros S1 S2.
  apply Sorted_StronglySorted in S1; [|exact js_le_trans].
  apply Sorted_StronglySorted in S2; [|exact js_le_trans].
  revert l2 S2.
  induction S1 as [|a l1 S1 IH Ha]; intros l2 S2 HP.
  - apply Permutation_nil in HP. now subst.
  - destruct S2 as [|b l2 S2 Hb].
    + symmetry in HP. apply Permutation_nil in HP. discriminate.
    + assert (a = b) as ->.
      { assert (Hin1 : In a (b :: l2))
          by (eapply Permutation_in; [exact HP|now left]).
        assert (Hin2 : In b (a :: l1))
          by (eapply Permutation_in; [symmetry; exact HP|now left]).
        destruct Hin1 as [->|Hin1]; [reflexivity|].
        destruct Hin2 as [->|Hin2]; [reflexivity|].
        apply js_le_antisym.
        - rewrite Forall_forall in Ha. now apply Ha.
        - rewrite Forall_forall in Hb. now apply Hb. }
      f_equal. apply IH; [assumption|].
      now apply Permutation_cons_inv in HP.
Qed.

Lemma Array_sort_unique (l s : list jsstring) :
  Sorted js_le s -> Permutation l s -> s = Array_sort l.
Proof.
  intros Hs Hp. apply sorted_perm_unique; [assumption|apply Array_sort_sorted|].
  rewrite <- Hp. apply Array_sort_perm.
Qed.

(* ================================================================== *)
(** ** The runtime on small inputs *)
(* ================================================================== *)

Example lit_calendar : lit "📅" = [55357; 56517].
Proof. reflexivity. Qed.

Example lit_label : lit "🏷️ " = [55356; 57335; 65039; 32].
Proof. reflexivity. Qed.

Example length_in_code_units : js_length (lit "é📅") = 3.
Proof. reflexivity. Qed.

Example sort_by_code_units :
  Array_sort [lit "- b"; lit "- B"; lit "- a 📅"; lit "- a"; lit "- <x>"]
  = [lit "- <x>"; lit "- B"; lit "- a"; lit "- a 📅"; lit "- b"].
Proof. vm_compute. reflexivity. Qed.

Example stringify_payload :
  stringify_text (@createPage_payload Z (lit "T") [34; 10; 55357])
  = lit "{" ++ [34] ++ lit "method" ++ [34] ++ lit ":" ++ [34] ++
    lit "logseq.Editor.insertBlock" ++ [34] ++ lit "," ++ [34] ++
    lit "args" ++ [34] ++ lit ":[" ++ [34] ++ lit "T" ++ [34] ++ lit "," ++
    [34; 92; 34; 92] ++ lit "n" ++ [92] ++ lit "ud83d" ++ [34] ++
    lit ",{" ++ [34] ++ lit "isPageBlock" ++ [34] ++ lit ":true}]}".
Proof. vm_compute. reflexivity. Qed.

Example ToString_nested :
  ToString (VArray [VNumber 1%Z; VNull; VArray [VBool true; VString (lit "x")];
                    VObject []])
  = Normal (lit "1,,true,x,[object Object]").
Proof. vm_compute. reflexivity. Qed.

Example ToString_shadowed :
  ToString (VObject [(lit "toString", VNumber 1%Z)])
  = Throw TypeError_primitive.
Proof. reflexivity. Qed.

(** A name that cannot be converted makes the whole listing fail, as an
    error result. *)
Example list_pages_conversion_error :
  fst (list_pages
         (answers (VArray [VObject [(lit "name",
                                     VObject [(lit "toString", VNull)])]]))
         sample_client false fresh)
  = Normal (error_result
      (lit "Failed to list pages: Cannot convert object to primitive value")).
Proof. vm_compute. reflexivity. Qed.

(* ================================================================== *)
(** ** Running the client *)
(* ================================================================== *)

Section Runs.

Context {num : Type} `{JSNumber num}.

#[local] Opaque lit digits_of_nat digits_of_N.
#[local] Arguments join : simpl never.
#[local] Arguments Array_sort : simpl never.
#[local] Arguments summary : simpl never.
#[local] Arguments stringify_text : simpl never.
#[local] Arguments client_log : simpl never.
#[local] Arguments text_result : simpl never.
#[local] Arguments error_result : simpl never.
Variable net : @http_request num -> @http_outcome num.

Lemma listPages_run (client : LogSeq) (w : @world num) :
  listPages net client w =
  (outcome_completion (net (listPages_request client)),
   World (log w ++ client_log client (lit "Listing all pages")
                     listPages_payload (lit "Error listing pages: ")
                     (net (listPages_request client)))
         (calls w ++ [listPages_request client])).
Proof.
  unfold listPages, bind, try_catch, axios_post, listPages_request,
    client_log, getBaseUrl, logger_debug, logger_info, logger_error,
    write_log, ret, throw.
  simpl. fold (api_url client).
  destruct (net _); simpl; rewrite <- !app_assoc; reflexivity.
Qed.

Lemma createPage_run (client : LogSeq) (title content : jsstring)
      (w : @world num) :
  createPage net client title content w =
  (outcome_completion (net (createPage_request client title content)),
   World (log w ++ client_log client
                     (lit "Creating page '" ++ title ++ lit "'")
                     (createPage_payload title content)
                     (lit "Error creating page: ")
                     (net (createPage_request client title content)))
         (calls w ++ [createPage_request client title content])).
Proof.
  unfold createPage, bind, try_catch, axios_post, createPage_request,
    client_log, getBaseUrl, logger_debug, logger_info, logger_error,
    write_log, ret, throw.
  simpl. fold (api_url client).
  destruct (net _); simpl; rewrite <- !app_assoc; reflexivity.
Qed.

(** *** The loop of [list_pages] *)

Lemma page_step_invalid (inc : bool) (acc : listing) (page : @value num)
      (w : world) :
  invalid_page page = true ->
  page_step inc acc page w =
  (Normal acc, World (log w ++ [invalid_page_entry page]) (calls w)).
Proof. intros Hi. unfold page_step. now rewrite Hi. Qed.

Lemma page_step_hidden (inc : bool) (acc : listing) (page : @value num)
      (w : world) :
  hidden inc page = true ->
  page_step inc acc page w =
  (Normal {| pagesInfo := pagesInfo acc;
             totalPages := totalPages acc;
             journalPages := S (journalPages acc) |}, w).
Proof.
  unfold hidden, page_step. intros Hh.
  apply andb_prop in Hh as [Hi Hj].
  apply negb_true_iff in Hi. now rewrite Hi, Hj.
Qed.

Lemma page_step_displayed (inc : bool) (acc : listing) (page : @value num)
      (w : world) :
  displayed inc page = true ->
  page_step inc acc page w =
  (cbind (page_info page) (fun line =>
     Normal {| pagesInfo := pagesInfo acc ++ [line];
               totalPages := S (totalPages acc);
               journalPages := journalPages acc |}), w).
Proof.
  unfold displayed, page_step. intros Hd.
  apply andb_prop in Hd as [Hi Hj].
  apply negb_true_iff in Hi. apply negb_true_iff in Hj.
  rewrite Hi, Hj. unfold bind, lift, ret.
  destruct (page_info page); reflexivity.
Qed.

(** Every element is of exactly one of the three kinds. *)
Lemma page_kinds (inc : bool) (page : @value num) :
  (invalid_page page = true /\ hidden inc page = false /\
   displayed inc page = false) \/
  (invalid_page page = false /\ hidden inc page = true /\
   displayed inc page = false) \/
  (invalid_page page = false /\ hidden inc page = false /\
   displayed inc page = true).
Proof.
  unfold hidden, displayed.
  destruct (invalid_page page), (truthy (isJournal page)), inc; simpl; auto.
Qed.

Lemma for_of_listing (inc : bool) (pages : list (@value num)) :
  forall (acc : listing) (w : world) (lines : list jsstring),
    composed_lines (filter (displayed inc) pages) = Normal lines ->
    for_of inc acc pages w =
    (Normal {| pagesInfo := pagesInfo acc ++ lines;
               totalPages := totalPages acc + List.length lines;
               journalPages := journalPages acc +
                               List.length (filter (hidden inc) pages) |},
     World (log w ++ map invalid_page_entry (filter invalid_page pages))
           (calls w)).
Proof.
  induction pages as [|page pages IH]; intros acc w lines Hl; simpl in *.
  - injection Hl as <-. unfold ret. destruct acc, w; simpl.
    now rewrite !app_nil_r, !Nat.add_0_r.
  - unfold bind.
    destruct (page_kinds inc page) as [(Hi & Hh & Hd)|[(Hi & Hh & Hd)|(Hi & Hh & Hd)]];
      rewrite Hi, Hh, Hd in *.
    + rewrite page_step_invalid by assumption.
      rewrite (IH _ _ _ Hl). simpl. now rewrite <- app_assoc.
    + rewrite page_step_hidden by assumption.
      rewrite (IH _ _ _ Hl). simpl. now rewrite Nat.add_succ_r.
    + rewrite page_step_displayed by assumption.
      simpl in Hl. destruct (page_info page) as [line|e]; [|discriminate].
      simpl in Hl.
      destruct (composed_lines (filter (displayed inc) pages)) as [r|e] eqn:Hr;
        [|discriminate].
      injection Hl as <-. simpl.
      rewrite (IH _ _ _ eq_refl). simpl.
      now rewrite <- app_assoc, Nat.add_succ_r.
Qed.

Lemma for_of_throws (inc : bool) (pages : list (@value num)) :
  forall (acc : listing) (w : world) (e : js_error),
    composed_lines (filter (displayed inc) pages) = Throw e ->
    fst (for_of inc acc pages w) = Throw e.
Proof.
  induction pages as [|page pages IH]; intros acc w e Hl; simpl in *.
  - discriminate.
  - unfold bind.
    destruct (page_kinds inc page) as [(Hi & Hh & Hd)|[(Hi & Hh & Hd)|(Hi & Hh & Hd)]];
      rewrite Hd in *.
    + rewrite page_step_invalid by assumption. now apply IH.
    + rewrite page_step_hidden by assumption. now apply IH.
    + rewrite page_step_displayed by assumption.
      simpl in Hl. destruct (page_info page) as [line|e']; simpl in *.
      * destruct (composed_lines (filter (displayed inc) pages)) as [r|e'] eqn:Hr;
          [discriminate|].
        injection Hl as ->. now apply IH.
      * congruence.
Qed.

(** *** The handler of [list_pages] *)

Lemma filter_errors_invalid (pages : list (@value num)) :
  filter is_error_entry (map invalid_page_entry pages) =
  map invalid_page_entry pages.
Proof.
  induction pages as [|p pages IH]; simpl; [reflexivity|now rewrite IH].
Qed.

Lemma list_pages_listing (client : LogSeq) (inc : bool) (w : @world num)
      (st : N) (pages : list (@value num)) (lines : list jsstring) :
  net (listPages_request client) = Resolved st (VArray pages) ->
  composed_lines (filter (displayed inc) pages) = Normal lines ->
  fst (list_pages net client inc w) =
    Normal (text_result
      (join newline
         (summary inc
            {| pagesInfo := Array_sort lines;
               totalPages := List.length lines;
               journalPages := List.length (filter (hidden inc) pages) |})))
  /\ calls (snd (list_pages net client inc w)) =
     calls w ++ [listPages_request client]
  /\ filter is_error_entry (log (snd (list_pages net client inc w))) =
     filter is_error_entry (log w) ++
     map invalid_page_entry (filter invalid_page pages).
Proof.
  intros Hnet Hlines.
  unfold list_pages, bind, try_catch, logger_info, logger_debug, write_log.
  rewrite listPages_run, Hnet. simpl.
  erewrite for_of_listing by exact Hlines. simpl.
  repeat split.
  rewrite !filter_app, filter_errors_invalid. simpl.
  now rewrite !app_nil_r.
Qed.

Lemma list_pages_not_array (client : LogSeq) (inc : bool) (w : @world num)
      (st : N) (d : @value num) :
  net (listPages_request client) = Resolved st d ->
  Array_isArray d = false ->
  fst (list_pages net client inc w) =
    Normal (error_result (lit "Failed to list pages: " ++ not_an_array))
  /\ calls (snd (list_pages net client inc w)) =
     calls w ++ [listPages_request client].
Proof.
  intros Hnet Hd.
  unfold list_pages, bind, try_catch, logger_info, logger_debug, write_log.
  rewrite listPages_run, Hnet. simpl. rewrite Hd. simpl.
  split; reflexivity.
Qed.

Lemma list_pages_rejected (client : LogSeq) (inc : bool) (w : @world num)
      (e : js_error) :
  net (listPages_request client) = Rejected e ->
  fst (list_pages net client inc w) =
    Normal (error_result (lit "Failed to list pages: " ++ message e)).
Proof.
  intros Hnet.
  unfold list_pages, bind, try_catch, logger_info, logger_debug, write_log.
  rewrite listPages_run, Hnet. reflexivity.
Qed.

Lemma list_pages_conversion_throws (client : LogSeq) (inc : bool)
      (w : @world num) (st : N) (pages : list (@value num)) (e : js_error) :
  net (listPages_request client) = Resolved st (VArray pages) ->
  composed_lines (filter (displayed inc) pages) = Throw e ->
  fst (list_pages net client inc w) =
    Normal (error_result (lit "Failed to list pages: " ++ message e)).
Proof.
  intros Hnet Hlines.
  unfold list_pages, bind, try_catch, logger_info, logger_debug, write_log.
  rewrite listPages_run, Hnet. simpl.
  match goal with
  | |- context [for_of inc ?a pages ?w0] =>
    pose proof (for_of_throws inc pages a w0 Hlines) as Ht;
    destruct (for_of inc a pages w0) as [[l|e'] w1]
  end; simpl in Ht; [discriminate|].
  injection Ht as ->. reflexivity.
Qed.

End Runs.

(* ================================================================== *)
(** ** The API client: [createPage] *)
(* ================================================================== *)

Section Client.

Context {num : Type} `{JSNumber num}.
Variable net : @http_request num -> @http_outcome num.

(** C5, as the code has it.  For every title and content, [createPage]
    makes exactly one call: a POST to [http://{host}:{port}/api] whose
    body is [{method: "logseq.Editor.insertBlock", args: [title, content,
    {isPageBlock: true}]}], with the headers [Authorization: Bearer
    <token>] and [Content-Type: application/json] and a timeout of 6000
    milliseconds. *)
Theorem createPage_one_call (client : LogSeq) (title content : jsstring)
        (w : @world num) :
  calls (snd (createPage net client title content w)) =
  calls w ++
  [Post (lit "http://" ++ host client ++ lit ":" ++
         digits_of_N (port client) ++ lit "/api")
        (VObject [(lit "method", VString (lit "logseq.Editor.insertBlock"));
                  (lit "args", VArray [VString title; VString content;
                                       VObject [(lit "isPageBlock",
                                                 VBool true)]])])
        [(lit "Authorization", lit "Bearer " ++ apiKey client);
         (lit "Content-Type", lit "application/json")]
        6000].
Proof. rewrite createPage_run. reflexivity. Qed.

End Client.

(** C5, as the specification words it, fails: the method in the body is
    not [insertBlock]. *)
Lemma createPage_method_counterexample :
  calls (snd (createPage (answers VNull) sample_client
                         (lit "Title") (lit "Body") fresh))
  <> [spec_createPage_request sample_client (lit "Title") (lit "Body")].
Proof. vm_compute. intros Heq. discriminate Heq. Qed.

(* ================================================================== *)
(** ** The tool [create_page] *)
(* ================================================================== *)

Section CreatePage.

Context {num : Type} `{JSNumber num}.
Variable net : @http_request num -> @http_outcome num.

#[local] Opaque lit digits_of_nat digits_of_N.

Lemma create_page_run (client : LogSeq) (title content : jsstring)
      (w : @world num) :
  fst (create_page net client title content w) =
  match net (createPage_request client title content) with
  | Resolved _ _ =>
    Normal (text_result (lit "Successfully created page '" ++ title ++
                         lit "'"))
  | Rejected e =>
    Normal (error_result (lit "Failed to create page: " ++ message e))
  end.
Proof.
  unfold create_page, bind, try_catch, logger_info, logger_debug,
    logger_error, write_log, ret.
  rewrite createPage_run.
  destruct (net _); reflexivity.
Qed.

(** C4.  Whatever the title and the content (so for every valid input):
    when the call of the client succeeds, the handler returns a result
    that is not an error and whose text is exactly [Successfully created
    page '<title>']; when the call fails, it returns [isError: true] with
    the text [Failed to create page: <message>], the message being that
    of the error of the client. *)
Theorem create_page_result (client : LogSeq) (title content : jsstring)
        (w : @world num) :
  (forall st d,
      net (createPage_request client title content) = Resolved st d ->
      fst (create_page net client title content w) =
      Normal {| isError := None;
                content := [{| type := lit "text";
                               text := lit "Successfully created page '" ++
                                       title ++ lit "'" |}] |})
  /\ (forall e,
      net (createPage_request client title content) = Rejected e ->
      fst (create_page net client title content w) =
      Normal {| isError := Some true;
                content := [{| type := lit "text";
                               text := lit "Failed to create page: " ++
                                       message e |}] |}).
Proof.
  split; [intros st d Hnet|intros e Hnet];
    rewrite create_page_run, Hnet; reflexivity.
Qed.

(** The schema accepts exactly the strings within the bounds. *)
Lemma create_page_issues_none (title content : jsstring) :
  create_page_issues (@VString num title) (VString content) = [] <->
  (1 <= js_length title <= 1000 /\ 1 <= js_length content <= 1000000).
Proof.
  unfold create_page_issues, title_schema, content_schema, z_string_min_max.
  destruct (js_length title <? 1) eqn:H1; destruct (1000 <? js_length title) eqn:H2;
    destruct (js_length content <? 1) eqn:H3;
    destruct (1000000 <? js_length content) eqn:H4; simpl;
    try apply N.ltb_lt in H1; try apply N.ltb_ge in H1;
    try apply N.ltb_lt in H2; try apply N.ltb_ge in H2;
    try apply N.ltb_lt in H3; try apply N.ltb_ge in H3;
    try apply N.ltb_lt in H4; try apply N.ltb_ge in H4;
    split; try discriminate; try reflexivity; intros; lia.
Qed.

(** C3.  When the title has length 0 or above 1000, or the content has
    length 0 or above 1,000,000, the tool returns a result with [isError:
    true] and leaves the world as it was: no call goes out (and nothing is
    logged), because the handler does not run. *)
Theorem create_page_out_of_bounds (describe : list zod_issue -> jsstring)
        (client : LogSeq) (title content : jsstring) (w : @world num) :
  js_length title = 0 \/ 1000 < js_length title \/
  js_length content = 0 \/ 1000000 < js_length content ->
  exists r,
    call_create_page net describe client (VString title) (VString content) w
    = (Normal r, w)
    /\ isError r = Some true
    /\ is_error r = true.
Proof.
  intros Hb.
  assert (Hi : create_page_issues (@VString num title) (VString content) <> []).
  { rewrite create_page_issues_none. lia. }
  unfold call_create_page.
  destruct (create_page_issues (VString title) (VString content)) as [|i rest];
    [congruence|].
  eexists. split; [reflexivity|]. split; reflexivity.
Qed.

(** Within the bounds the front end hands the arguments to the handler. *)
Lemma call_create_page_valid (describe : list zod_issue -> jsstring)
      (client : LogSeq) (title content : jsstring) (w : @world num) :
  1 <= js_length title <= 1000 ->
  1 <= js_length content <= 1000000 ->
  call_create_page net describe client (VString title) (VString content) w
  = create_page net client title content w.
Proof.
  intros Ht Hc. unfold call_create_page.
  now rewrite (proj2 (create_page_issues_none title content) (conj Ht Hc)).
Qed.

End CreatePage.

Lemma create_page_result_witness :
  fst (create_page (answers VNull) sample_client (lit "T") (lit "C") fresh)
  = Normal {| isError := None;
              content := [{| type := lit "text";
                             text := lit "Successfully created page '" ++
                                     lit "T" ++ lit "'" |}] |}
  /\ fst (create_page unreachable sample_client (lit "T") (lit "C") fresh)
  = Normal {| isError := Some true;
              content := [{| type := lit "text";
                             text := lit "Failed to create page: " ++
                                     lit "Network Error" |}] |}.
Proof.
  split.
  - apply (proj1 (create_page_result (answers VNull) sample_client
                    (lit "T") (lit "C") fresh) 200 VNull).
    reflexivity.
  - apply (proj2 (create_page_result unreachable sample_client
                    (lit "T") (lit "C") fresh) (Error (lit "Network Error"))).
    reflexivity.
Defined.

Lemma create_page_out_of_bounds_witness :
  exists r,
    call_create_page (answers VNull) first_issue sample_client
                     (VString []) (VString (lit "C")) fresh
    = (Normal r, fresh)
    /\ isError r = Some true
    /\ is_error r = true.
Proof.
  apply (create_page_out_of_bounds (answers VNull) first_issue sample_client
           [] (lit "C") fresh).
  left. reflexivity.
Defined.

(* ================================================================== *)
(** ** The tool [list_pages] *)
(* ================================================================== *)

Section ListPages.

Context {num : Type} `{JSNumber num}.
Variable net : @http_request num -> @http_outcome num.

#[local] Opaque lit digits_of_nat digits_of_N.

(** C6, as the code has it.  For every result of [listPages] that is not
    an array (an object, [null], a string, ...), [list_pages] returns
    [isError: true] with the text [Failed to list pages: Invalid response
    from LogSeq API: Expected an array of pages]; it does not throw. *)
Theorem list_pages_rejects_non_array (client : LogSeq) (inc : bool)
        (w : @world num) (st : N) (d : @value num) :
  net (listPages_request client) = Resolved st d ->
  Array_isArray d = false ->
  fst (list_pages net client inc w) =
  Normal {| isError := Some true;
            content :=
              [{| type := lit "text";
                  text := lit "Failed to list pages: " ++
                          lit "Invalid response from LogSeq API: Expected an array of pages"
               |}] |}.
Proof.
  intros Hnet Hd.
  exact (proj1 (list_pages_not_array net client inc w Hnet Hd)).
Qed.

Lemma composed_lines_length (pages : list (@value num)) :
  forall lines, composed_lines pages = Normal lines ->
                List.length lines = List.length pages.
Proof.
  induction pages as [|p pages IH]; simpl; intros lines Hl.
  - now injection Hl as <-.
  - destruct (page_info p); [|discriminate]. simpl in Hl.
    destruct (composed_lines pages); [|discriminate].
    injection Hl as <-. simpl. f_equal. now apply IH.
Qed.

Lemma invalid_page_not_object (page : @value num) :
  invalid_page page = not_object page.
Proof.
  unfold invalid_page.
  destruct page; simpl; try reflexivity;
    try (rewrite orb_comm; vm_compute; reflexivity).
Qed.

Lemma truthy_isJournal (page : @value num) :
  truthy (isJournal page) = truthy (Get page (lit "journal?")).
Proof.
  unfold isJournal, js_or.
  destruct (truthy (Get page (lit "journal?"))) eqn:Ht; [assumption|reflexivity].
Qed.

Lemma filter_partition_length {A} (f : A -> bool) (l : list A) :
  (List.length (filter f l) + List.length (filter (fun x => negb (f x)) l)
   = List.length l)%nat.
Proof.
  induction l as [|x l IH]; simpl; [reflexivity|].
  destruct (f x); simpl; lia.
Qed.

(** C2.  Three page records, exactly one of which carries [journal?:
    true] while the other two carry no truthy flag, listed with
    [include_journals = false]: the loop leaves the journal page out of
    the displayed lines and counts it, and the result lists the lines of
    the two other pages, with [Total pages shown: 2] and [Journal pages: 1
    (hidden)]. *)
Theorem list_pages_hides_journal (client : LogSeq) (w : @world num) (st : N)
        (pages : list (@value num)) (lines : list jsstring) :
  net (listPages_request client) = Resolved st (VArray pages) ->
  List.length pages = 3%nat ->
  Forall (fun p => invalid_page p = false) pages ->
  List.length (filter journal_true pages) = 1%nat ->
  Forall (fun p => journal_true p = false ->
                   truthy (Get p (lit "journal?")) = false) pages ->
  composed_lines (filter (fun p => negb (journal_true p)) pages)
  = Normal lines ->
  List.length lines = 2%nat
  /\ (forall w0 : @world num,
        fst (for_of false no_pages pages w0) =
        Normal {| pagesInfo := lines; totalPages := 2; journalPages := 1 |})
  /\ fst (list_pages net client false w) =
     Normal {| isError := None;
               content :=
                 [{| type := lit "text";
                     text := join newline
                               ([lit "LogSeq Pages:"; lit ""] ++
                                Array_sort lines ++
                                [lit "";
                                 lit "📊 Statistics:";
                                 lit "- Total pages shown: 2";
                                 lit "- Journal pages: 1 (hidden)"]) |}] |}.
Proof.
  intros Hnet Hlen Hrec Hone Hothers Hlines.
  assert (Hflag : forall p, In p pages ->
            truthy (isJournal p) = journal_true p).
  { intros p Hin. rewrite truthy_isJournal.
    rewrite Forall_forall in Hothers. specialize (Hothers p Hin).
    unfold journal_true in *.
    destruct (Get p (lit "journal?")) as [| |[|]| | | |]; auto. }
  assert (Hdisp : filter (displayed false) pages =
                  filter (fun p => negb (journal_true p)) pages).
  { apply filter_ext_in. intros p Hin. unfold displayed.
    rewrite Forall_forall in Hrec. rewrite (Hrec p Hin), (Hflag p Hin).
    simpl. now rewrite andb_true_r. }
  assert (Hhid : filter (hidden false) pages = filter journal_true pages).
  { apply filter_ext_in. intros p Hin. unfold hidden.
    rewrite Forall_forall in Hrec. rewrite (Hrec p Hin), (Hflag p Hin).
    simpl. now rewrite andb_true_r. }
  assert (Hl2 : List.length lines = 2%nat).
  { rewrite (composed_lines_length _ Hlines).
    pose proof (filter_partition_length journal_true pages). lia. }
  rewrite <- Hdisp in Hlines.
  split; [assumption|]. split.
  - intros w0. rewrite (for_of_listing false pages no_pages w0 Hlines).
    simpl. now rewrite Hl2, Hhid, Hone.
  - destruct (list_pages_listing net client false w Hnet Hlines) as (-> & _).
    rewrite Hl2, Hhid, Hone. reflexivity.
Qed.

Lemma not_object_kinds (inc : bool) (page : @value num) :
  not_object page = true ->
  displayed inc page = false /\ hidden inc page = false.
Proof.
  intros Hn. unfold displayed, hidden.
  rewrite invalid_page_not_object, Hn. split; reflexivity.
Qed.

Lemma filter_displayed_objects (inc : bool) (pages : list (@value num)) :
  filter (displayed inc) (filter (fun p => negb (not_object p)) pages) =
  filter (displayed inc) pages.
Proof.
  induction pages as [|p pages IH]; simpl; [reflexivity|].
  destruct (not_object p) eqn:Hn; simpl.
  - now rewrite (proj1 (not_object_kinds inc p Hn)).
  - now rewrite IH.
Qed.

Lemma filter_hidden_objects (inc : bool) (pages : list (@value num)) :
  filter (hidden inc) (filter (fun p => negb (not_object p)) pages) =
  filter (hidden inc) pages.
Proof.
  induction pages as [|p pages IH]; simpl; [reflexivity|].
  destruct (not_object p) eqn:Hn; simpl.
  - now rewrite (proj2 (not_object_kinds inc p Hn)).
  - now rewrite IH.
Qed.

(** Where the loop stops when a line cannot be composed: at the first
    displayed page whose line throws, with the rejected elements before it
    logged and nothing after it looked at. *)
Lemma for_of_throw_prefix (inc : bool) (pages : list (@value num)) :
  forall (acc : listing) (w : @world num) (e : js_error),
    composed_lines (filter (displayed inc) pages) = Throw e ->
    exists before page after,
      pages = before ++ page :: after
      /\ displayed inc page = true
      /\ page_info page = Throw e
      /\ (exists ls, composed_lines (filter (displayed inc) before)
                     = Normal ls)
      /\ for_of inc acc pages w =
         (Throw e,
          World (log w ++ map invalid_page_entry (filter invalid_page before))
                (calls w)).
Proof.
  induction pages as [|p pages IH]; intros acc w e Hl; simpl in Hl.
  - discriminate.
  - simpl for_of. unfold bind.
    destruct (page_kinds inc p)
      as [(Hi & Hh & Hd)|[(Hi & Hh & Hd)|(Hi & Hh & Hd)]];
      rewrite Hd in Hl.
    + rewrite page_step_invalid by assumption.
      destruct (IH acc (World (log w ++ [invalid_page_entry p]) (calls w))
                  e Hl)
        as (before & page & after & -> & Hdp & Hp & (ls & Hls) & Hf).
      exists (p :: before), page, after.
      split; [reflexivity|]. split; [assumption|]. split; [assumption|].
      split.
      * exists ls. simpl. now rewrite Hd.
      * rewrite Hf. simpl. rewrite Hi. simpl. now rewrite <- app_assoc.
    + rewrite page_step_hidden by assumption.
      match goal with
      | |- context [for_of inc ?a pages w] =>
        destruct (IH a w e Hl)
          as (before & page & after & -> & Hdp & Hp & (ls & Hls) & Hf);
        rewrite Hf
      end.
      exists (p :: before), page, after.
      split; [reflexivity|]. split; [assumption|]. split; [assumption|].
      split.
      * exists ls. simpl. now rewrite Hd.
      * simpl. now rewrite Hi.
    + rewrite page_step_displayed by assumption.
      simpl in Hl.
      destruct (page_info p) as [line|e'] eqn:Hp; simpl in *.
      * destruct (composed_lines (filter (displayed inc) pages))
          as [r|e'] eqn:Hr; [discriminate|].
        injection Hl as ->.
        match goal with
        | |- context [for_of inc ?a pages w] =>
          destruct (IH a w e eq_refl)
            as (before & page & after & -> & Hdp & Hp' & (ls & Hls) & Hf);
          rewrite Hf
        end.
        exists (p :: before), page, after.
        split; [reflexivity|]. split; [assumption|]. split; [assumption|].
        split.
        -- exists (line :: ls). simpl. rewrite Hd. simpl.
           now rewrite Hp, Hls.
        -- simpl. now rewrite Hi.
      * injection Hl as ->.
        exists [], p, pages.
        split; [reflexivity|]. split; [assumption|]. split; [assumption|].
        split; [now exists []|]. simpl. rewrite app_nil_r. now destruct w.
Qed.

Lemma list_pages_stopped (client : LogSeq) (inc : bool) (w : @world num)
      (st : N) (pages : list (@value num)) (e : js_error) :
  net (listPages_request client) = Resolved st (VArray pages) ->
  composed_lines (filter (displayed inc) pages) = Throw e ->
  exists before page after,
    pages = before ++ page :: after
    /\ displayed inc page = true
    /\ page_info page = Throw e
    /\ (exists ls, composed_lines (filter (displayed inc) before) = Normal ls)
    /\ filter is_error_entry (log (snd (list_pages net client inc w))) =
       filter is_error_entry (log w) ++
       map invalid_page_entry (filter invalid_page before) ++
       [Log error (lit "Failed to list pages: " ++ message e)]
    /\ fst (list_pages net client inc w) =
       Normal (error_result (lit "Failed to list pages: " ++ message e)).
Proof.
  intros Hnet Hlines.
  unfold list_pages, bind, try_catch, logger_info, logger_debug,
    logger_error, write_log, ret, throw.
  rewrite listPages_run, Hnet. simpl.
  match goal with
  | |- context [for_of inc ?a pages ?w0] =>
    destruct (for_of_throw_prefix inc pages a w0 Hlines)
      as (before & page & after & Hpages & Hd & Hp & Hls & Hf);
    rewrite Hf
  end.
  exists before, page, after.
  split; [assumption|]. split; [assumption|]. split; [assumption|].
  split; [assumption|]. simpl. split; [|reflexivity].
  rewrite !filter_app, filter_errors_invalid. simpl.
  now rewrite !app_nil_r, <- app_assoc.
Qed.

(** C7, as the code has it.  For every upstream sequence: when the
    lines of the displayed pages can all be composed, each element that is
    [null], a boolean, a number or a string is logged at error level and
    nothing else is, and the result is a listing and not an error, whose
    lines and two counts are those of the sequence without these elements:
    the shown count is the number of remaining elements that the journal
    filter keeps.  When the line of a displayed page cannot be composed,
    the loop stops at the first such page: of these elements only the ones
    before that page have been logged, the failure is logged after them,
    and the result is an error result with the text [Failed to list pages:
    <message>]. *)
Theorem list_pages_skips_non_objects (client : LogSeq) (inc : bool)
        (w : @world num) (st : N) (pages : list (@value num)) :
  let rest := filter (fun p => negb (not_object p)) pages in
  net (listPages_request client) = Resolved st (VArray pages) ->
  (forall lines,
      composed_lines (filter (displayed inc) rest) = Normal lines ->
      filter is_error_entry (log (snd (list_pages net client inc w))) =
        filter is_error_entry (log w) ++
        map (fun p => Log error (lit "Invalid page object in response: " ++
                                 stringify_text p))
            (filter not_object pages)
      /\ fst (list_pages net client inc w) =
         Normal {| isError := None;
                   content :=
                     [{| type := lit "text";
                         text := join newline
                           (summary inc
                              {| pagesInfo := Array_sort lines;
                                 totalPages :=
                                   List.length (filter (displayed inc) rest);
                                 journalPages :=
                                   List.length (filter (hidden inc) rest) |})
                      |}] |})
  /\ (forall e,
      composed_lines (filter (displayed inc) rest) = Throw e ->
      exists before page after,
        pages = before ++ page :: after
        /\ displayed inc page = true
        /\ page_info page = Throw e
        /\ (exists ls, composed_lines (filter (displayed inc) before)
                       = Normal ls)
        /\ filter is_error_entry (log (snd (list_pages net client inc w))) =
           filter is_error_entry (log w) ++
           map (fun p => Log error
                           (lit "Invalid page object in response: " ++
                            stringify_text p))
               (filter not_object before) ++
           [Log error (lit "Failed to list pages: " ++ message e)]
        /\ fst (list_pages net client inc w) =
           Normal {| isError := Some true;
                     content :=
                       [{| type := lit "text";
                           text := lit "Failed to list pages: " ++ message e
                        |}] |}).
Proof.
  intros rest Hnet. subst rest.
  rewrite filter_displayed_objects, filter_hidden_objects.
  split.
  - intros lines Hlines.
    destruct (list_pages_listing net client inc w Hnet Hlines)
      as (Hr & _ & Hlog).
    split.
    + rewrite Hlog. f_equal. f_equal.
      apply filter_ext. intros p. apply invalid_page_not_object.
    + rewrite Hr. now rewrite (composed_lines_length _ Hlines).
  - intros e Hlines.
    destruct (@list_pages_stopped client inc w st pages e Hnet Hlines)
      as (before & page & after & Hpages & Hd & Hp & Hls & Hlog & Hr).
    exists before, page, after.
    split; [assumption|]. split; [assumption|]. split; [assumption|].
    split; [assumption|]. split; [|exact Hr].
    rewrite Hlog. f_equal. f_equal. f_equal.
    apply filter_ext. intros p. apply invalid_page_not_object.
Qed.

(** C9.  When the upstream result is an array whose displayed pages have
    lines, the page lines of the output stand between the header and the
    statistics in the order of [<] on the whole composed line: they are a
    sorted rearrangement of the composed lines, and the only one. *)
Theorem list_pages_sorted_by_line (client : LogSeq) (inc : bool)
        (w : @world num) (st : N) (pages : list (@value num))
        (lines : list jsstring) :
  net (listPages_request client) = Resolved st (VArray pages) ->
  composed_lines (filter (displayed inc) pages) = Normal lines ->
  exists sorted : list jsstring,
    fst (list_pages net client inc w) =
    Normal {| isError := None;
              content :=
                [{| type := lit "text";
                    text := join newline
                      ([lit "LogSeq Pages:"; lit ""] ++
                       sorted ++
                       [lit "";
                        lit "📊 Statistics:";
                        lit "- Total pages shown: " ++
                          digits_of_nat (List.length lines);
                        if inc
                        then lit "- Journal pages: " ++
                             digits_of_nat
                               (List.length (filter (hidden inc) pages))
                        else lit "- Journal pages: " ++
                             digits_of_nat
                               (List.length (filter (hidden inc) pages)) ++
                             lit " (hidden)"]) |}] |}
    /\ Sorted js_le sorted
    /\ Permutation lines sorted
    /\ (forall other, Sorted js_le other -> Permutation lines other ->
                      other = sorted).
Proof.
  intros Hnet Hlines. exists (Array_sort lines).
  destruct (list_pages_listing net client inc w Hnet Hlines) as (Hr & _).
  split; [exact Hr|]. split; [apply Array_sort_sorted|].
  split; [apply Array_sort_perm|].
  intros other Hs Hp. now apply Array_sort_unique.
Qed.

Lemma try_catch_returns {A} (body : @M num A)
      (handler : js_error -> @M num A) (w : @world num) :
  (forall e w', exists a, fst (handler e w') = Normal a) ->
  exists a, fst (try_catch body handler w) = Normal a.
Proof.
  intros Hh. unfold try_catch.
  destruct (body w) as [[a|e] w']; [now exists a|apply Hh].
Qed.

(** The handler catches whatever its body throws: it always returns a
    result. *)
Lemma list_pages_returns (client : LogSeq) (inc : bool) (w : @world num) :
  exists r, fst (list_pages net client inc w) = Normal r.
Proof.
  unfold list_pages, bind at 1, logger_info at 1, write_log at 1.
  apply try_catch_returns. intros e w'. eexists. reflexivity.
Qed.

(** *** One page *)

(** C8, as the code has it.  The display name is the [originalName]
    field when it is truthy, else the [name] field when it is truthy, else
    the string [<unknown>].  The tags are the empty sequence whenever the
    [tags] field is absent or not an array.  The properties are the empty
    mapping whenever the [properties] field is absent, [null], a boolean,
    a number or a string, and the field itself when it is a mapping. *)
Theorem page_fields_resolved (page : @value num) :
  page_name page =
    (if truthy (Get page (lit "originalName"))
     then Get page (lit "originalName")
     else if truthy (Get page (lit "name"))
          then Get page (lit "name")
          else VString (lit "<unknown>"))
  /\ (Get page (lit "tags") = VUndefined \/
      Array_isArray (Get page (lit "tags")) = false ->
      page_tags page = VArray [])
  /\ (Get page (lit "properties") = VUndefined \/
      not_object (Get page (lit "properties")) = true ->
      page_properties page = VObject [])
  /\ (forall fs, Get page (lit "properties") = VObject fs ->
                 page_properties page = VObject fs).
Proof.
  repeat split.
  - unfold page_name, js_or.
    destruct (truthy (Get page (lit "originalName"))) eqn:Ho.
    + now rewrite Ho.
    + now destruct (truthy (Get page (lit "name"))).
  - unfold page_tags. intros [Ha|Ha]; now rewrite Ha.
  - unfold page_properties. intros [Ha|Ha].
    + now rewrite Ha.
    + destruct (Get page (lit "properties")); try discriminate;
        try reflexivity; simpl.
      * now rewrite andb_false_r.
      * now rewrite andb_false_r.
      * now rewrite andb_false_r.
  - intros fs Hp. unfold page_properties. now rewrite Hp.
Qed.

Lemma page_info_shape (page : @value num) (line : jsstring) :
  page_info page = Normal line ->
  exists name_text rest,
    ToString (page_name page) = Normal name_text
    /\ line = lit "- " ++ name_text ++
              (if truthy (isJournal page) then lit " 📅" else []) ++ rest
    /\ starts_with (lit " 📅") rest = false.
Proof.
  unfold page_info.
  destruct (ToString (page_name page)) as [name_text|e]; [|discriminate].
  simpl. intros Hl. exists name_text.
  destruct (truthy (isJournal page));
    (destruct (0 <? List.length (elements (page_tags page)))%nat;
     [destruct (Array_join ToString (lit ", ") (elements (page_tags page)))
        as [t|e]; [|simpl in Hl; discriminate]|]);
    (destruct (0 <? List.length (Object_keys (page_properties page)))%nat;
     [destruct (render_entries (Object_entries (page_properties page)))
        as [ps|e]; [|simpl in Hl; discriminate]|]);
    simpl in Hl; injection Hl as <-.
  - exists (lit " 🏷️ " ++ t ++ lit " 📝 " ++ join (lit ", ") ps).
    split; [reflexivity|]. split; [|vm_compute; reflexivity].
    rewrite <- ?app_assoc. reflexivity.
  - exists (lit " 🏷️ " ++ t).
    split; [reflexivity|]. split; [|vm_compute; reflexivity].
    rewrite <- ?app_assoc. reflexivity.
  - exists (lit " 📝 " ++ join (lit ", ") ps).
    split; [reflexivity|]. split; [|vm_compute; reflexivity].
    rewrite <- ?app_assoc. reflexivity.
  - exists []. split; [reflexivity|]. split; [|vm_compute; reflexivity].
    rewrite <- ?app_assoc. reflexivity.
  - exists (lit " 🏷️ " ++ t ++ lit " 📝 " ++ join (lit ", ") ps).
    split; [reflexivity|]. split; [|vm_compute; reflexivity].
    rewrite <- ?app_assoc. reflexivity.
  - exists (lit " 🏷️ " ++ t).
    split; [reflexivity|]. split; [|vm_compute; reflexivity].
    rewrite <- ?app_assoc. reflexivity.
  - exists (lit " 📝 " ++ join (lit ", ") ps).
    split; [reflexivity|]. split; [|vm_compute; reflexivity].
    rewrite <- ?app_assoc. reflexivity.
  - exists []. split; [reflexivity|]. split; [|vm_compute; reflexivity].
    simpl. now rewrite app_nil_r.
Qed.

(** What ToBoolean makes of the values a flag can hold. *)
Lemma truthy_values (n : num) (c : code_unit) (s : jsstring)
      (xs : list (@value num)) (fs : list (jsstring * @value num)) :
  truthy (VNumber n) = num_truthy n
  /\ truthy (@VString num (c :: s)) = true
  /\ truthy (@VBool num true) = true
  /\ truthy (VArray xs) = true
  /\ truthy (VObject fs) = true
  /\ truthy (@VBool num false) = false
  /\ truthy (@VString num []) = false
  /\ truthy (@VNull num) = false
  /\ truthy (@VUndefined num) = false.
Proof. repeat split. Qed.

Lemma Get_absent (fs : list (jsstring * @value num)) (k : jsstring) :
  own_property k fs = None -> Get (VObject fs) k = VUndefined.
Proof. intros Hk. simpl. now rewrite Hk. Qed.

(** One turn of the loop on an element that passes the guard: with a
    truthy [journal?] field the page is counted and left out when
    [include_journals] is false, and its line carries the calendar mark
    after the name; with a falsy field (or none) the page is displayed
    whatever [include_journals] is, and its line carries no calendar
    mark after the name. *)
Lemma page_step_journal_flag (page : @value num) (acc : listing)
        (w : @world num) :
  invalid_page page = false ->
  truthy (isJournal page) = truthy (Get page (lit "journal?"))
  /\ (truthy (Get page (lit "journal?")) = true ->
      page_step false acc page w =
        (Normal {| pagesInfo := pagesInfo acc;
                   totalPages := totalPages acc;
                   journalPages := S (journalPages acc) |}, w)
      /\ forall line, page_info page = Normal line ->
         exists name_text rest,
           ToString (page_name page) = Normal name_text
           /\ line = lit "- " ++ name_text ++ lit " 📅" ++ rest)
  /\ (truthy (Get page (lit "journal?")) = false ->
      (forall inc,
          page_step inc acc page w =
          (cbind (page_info page) (fun line =>
             Normal {| pagesInfo := pagesInfo acc ++ [line];
                       totalPages := S (totalPages acc);
                       journalPages := journalPages acc |}), w))
      /\ forall line, page_info page = Normal line ->
         exists name_text rest,
           ToString (page_name page) = Normal name_text
           /\ line = lit "- " ++ name_text ++ rest
           /\ starts_with (lit " 📅") rest = false).
Proof.
  intros Hobj. split; [apply truthy_isJournal|]. split; intros Hflag.
  - split.
    + apply page_step_hidden. unfold hidden.
      now rewrite Hobj, truthy_isJournal, Hflag.
    + intros line Hline.
      destruct (page_info_shape page Hline) as (name_text & rest & Hn & Hl & _).
      rewrite truthy_isJournal, Hflag in Hl. now exists name_text, rest.
  - split.
    + intros inc. apply page_step_displayed. unfold displayed.
      now rewrite Hobj, truthy_isJournal, Hflag.
    + intros line Hline.
      destruct (page_info_shape page Hline) as (name_text & rest & Hn & Hl & Hr).
      rewrite truthy_isJournal, Hflag in Hl. now exists name_text, rest.
Qed.






(** With [include_journals = true] no page is hidden, so the journal
    counter stays at 0 whatever the pages are. *)
Lemma hidden_when_included (pages : list (@value num)) :
  filter (hidden true) pages = [].
Proof.
  induction pages as [|p pages IH]; simpl; [reflexivity|].
  unfold hidden at 1. simpl. now rewrite !andb_false_r.
Qed.

Lemma list_pages_included_count (client : LogSeq) (w : @world num) (st : N)
      (pages : list (@value num)) (lines : list jsstring) :
  net (listPages_request client) = Resolved st (VArray pages) ->
  composed_lines (filter (displayed true) pages) = Normal lines ->
  fst (list_pages net client true w) =
  Normal (text_result
    (join newline
       ([lit "LogSeq Pages:"; lit ""] ++ Array_sort lines ++
        [lit ""; lit "📊 Statistics:";
         lit "- Total pages shown: " ++ digits_of_nat (List.length lines);
         lit "- Journal pages: 0"]))).
Proof.
  intros Hnet Hlines.
  destruct (list_pages_listing net client true w Hnet Hlines) as (-> & _).
  now rewrite hidden_when_included.
Qed.

End ListPages.

Lemma list_pages_rejects_non_array_witness :
  fst (list_pages (answers (page_named "Alpha")) sample_client false fresh) =
  Normal {| isError := Some true;
            content :=
              [{| type := lit "text";
                  text := lit "Failed to list pages: " ++
                          lit "Invalid response from LogSeq API: Expected an array of pages"
               |}] |}.
Proof.
  apply (list_pages_rejects_non_array (answers (page_named "Alpha"))
           sample_client false fresh (st := 200) (d := page_named "Alpha"));
    reflexivity.
Defined.

(** C6, as the specification words it, fails: at the result [null] the
    text of the error does not contain [Invalid response: expected a
    sequence of pages]. *)
Lemma list_pages_non_array_counterexample :
  fst (list_pages (answers VNull) sample_client false fresh) =
  Normal (error_result (lit
    "Failed to list pages: Invalid response from LogSeq API: Expected an array of pages"))
  /\ includes (lit
    "Failed to list pages: Invalid response from LogSeq API: Expected an array of pages")
    spec_not_a_sequence = false.
Proof. split; vm_compute; reflexivity. Qed.

(** C1.  Three pages of which one carries [journal?: true], listed with
    [include_journals = true]: the three pages appear and the label
    [(hidden)] does not, but the journal count the code reports is 0, not
    1; the counter is only ever incremented for a page that is left
    out. *)
Theorem list_pages_included_journal_reported :
  fst (list_pages (answers (VArray three_pages)) sample_client true fresh) =
  Normal {| isError := None;
            content :=
              [{| type := lit "text";
                  text := join newline
                            [lit "LogSeq Pages:";
                             lit "";
                             lit "- 2024-01-01 📅";
                             lit "- Alpha";
                             lit "- Beta";
                             lit "";
                             lit "📊 Statistics:";
                             lit "- Total pages shown: 3";
                             lit "- Journal pages: 0"] |}] |}.
Proof. vm_compute. reflexivity. Qed.

Lemma list_pages_hides_journal_witness :
  List.length [lit "- Alpha"; lit "- Beta"] = 2%nat
  /\ (forall w0 : @world Z,
        fst (for_of false no_pages three_pages w0) =
        Normal {| pagesInfo := [lit "- Alpha"; lit "- Beta"];
                  totalPages := 2; journalPages := 1 |})
  /\ fst (list_pages (answers (VArray three_pages)) sample_client false fresh)
     = Normal {| isError := None;
                 content :=
                   [{| type := lit "text";
                       text := join newline
                                 ([lit "LogSeq Pages:"; lit ""] ++
                                  Array_sort [lit "- Alpha"; lit "- Beta"] ++
                                  [lit "";
                                   lit "📊 Statistics:";
                                   lit "- Total pages shown: 2";
                                   lit "- Journal pages: 1 (hidden)"]) |}]
              |}.
Proof.
  apply (list_pages_hides_journal (answers (VArray three_pages))
           sample_client fresh (st := 200) (pages := three_pages)).
  - reflexivity.
  - reflexivity.
  - repeat constructor.
  - vm_compute. reflexivity.
  - repeat constructor; vm_compute; intros; reflexivity || discriminate.
  - vm_compute. reflexivity.
Defined.

(** C7, as the specification words it, fails: an array among the
    elements is not a record, yet it is neither logged nor skipped; it is
    listed as the page [<unknown>] and counted. *)
Lemma list_pages_array_element_counterexample :
  is_record (@VArray Z []) = false
  /\ In (VArray []) pages_around_array
  /\ fst (list_pages (answers (VArray pages_around_array)) sample_client
                     false fresh) =
     Normal (text_result
       (join newline [lit "LogSeq Pages:";
                      lit "";
                      lit "- <unknown>";
                      lit "- A";
                      lit "- B";
                      lit "";
                      lit "📊 Statistics:";
                      lit "- Total pages shown: 3";
                      lit "- Journal pages: 0 (hidden)"]))
  /\ filter is_error_entry
       (log (snd (list_pages (answers (VArray pages_around_array))
                             sample_client false fresh))) = [].
Proof.
  split; [reflexivity|]. split; [right; left; reflexivity|].
  split; vm_compute; reflexivity.
Qed.

Lemma list_pages_skips_non_objects_witness :
  (filter is_error_entry
     (log (snd (list_pages (answers (VArray pages_around_number))
                           sample_client false fresh))) =
     filter is_error_entry (log fresh) ++
     map (fun p => Log error (lit "Invalid page object in response: " ++
                              stringify_text p))
         (filter not_object pages_around_number)
   /\ fst (list_pages (answers (VArray pages_around_number)) sample_client
                      false fresh) =
      Normal {| isError := None;
                content :=
                  [{| type := lit "text";
                      text := join newline
                        (summary false
                           {| pagesInfo := Array_sort [lit "- A"; lit "- B"];
                              totalPages :=
                                List.length
                                  (filter (displayed false)
                                     (filter (fun p => negb (not_object p))
                                             pages_around_number));
                              journalPages :=
                                List.length
                                  (filter (hidden false)
                                     (filter (fun p => negb (not_object p))
                                             pages_around_number)) |})
                   |}] |})
  /\ (exists before page after,
        unconvertible_then_number = before ++ page :: after
        /\ displayed false page = true
        /\ page_info page = Throw TypeError_primitive
        /\ (exists ls, composed_lines (filter (displayed false) before)
                       = Normal ls)
        /\ filter is_error_entry
             (log (snd (list_pages (answers (VArray unconvertible_then_number))
                                   sample_client false fresh))) =
           filter is_error_entry (log fresh) ++
           map (fun p => Log error
                           (lit "Invalid page object in response: " ++
                            stringify_text p))
               (filter not_object before) ++
           [Log error (lit "Failed to list pages: " ++
                       message TypeError_primitive)]
        /\ fst (list_pages (answers (VArray unconvertible_then_number))
                           sample_client false fresh) =
           Normal {| isError := Some true;
                     content :=
                       [{| type := lit "text";
                           text := lit "Failed to list pages: " ++
                                   message TypeError_primitive |}] |}).
Proof.
  split.
  - apply (proj1 (list_pages_skips_non_objects
                    (answers (VArray pages_around_number))
                    sample_client false fresh (st := 200)
                    (pages := pages_around_number) eq_refl)).
    vm_compute. reflexivity.
  - apply (proj2 (list_pages_skips_non_objects
                    (answers (VArray unconvertible_then_number))
                    sample_client false fresh (st := 200)
                    (pages := unconvertible_then_number) eq_refl)).
    vm_compute. reflexivity.
Defined.

(** The number after the page whose name cannot be converted is never
    looked at: the log holds the failure and no line for the number. *)
Example list_pages_stops_before_number :
  filter is_error_entry
    (log (snd (list_pages (answers (VArray unconvertible_then_number))
                          sample_client false fresh))) =
  [Log error
     (lit "Failed to list pages: Cannot convert object to primitive value")]
  /\ fst (list_pages (answers (VArray unconvertible_then_number))
                     sample_client false fresh) =
     Normal (error_result
       (lit "Failed to list pages: Cannot convert object to primitive value")).
Proof. split; vm_compute; reflexivity. Qed.

(** What the listing of [pages_around_number] comes to. *)
Example list_pages_around_number :
  fst (list_pages (answers (VArray pages_around_number)) sample_client
                  false fresh) =
  Normal (text_result
    (join newline [lit "LogSeq Pages:";
                   lit "";
                   lit "- A";
                   lit "- B";
                   lit "";
                   lit "📊 Statistics:";
                   lit "- Total pages shown: 2";
                   lit "- Journal pages: 0 (hidden)"]))
  /\ filter is_error_entry
       (log (snd (list_pages (answers (VArray pages_around_number))
                             sample_client false fresh))) =
     [Log error (lit "Invalid page object in response: 42")].
Proof. split; vm_compute; reflexivity. Qed.

(** C8, as the specification words it, fails: properties that are an
    array are not a mapping, yet they are kept and rendered under their
    indices. *)
Lemma page_array_properties_counterexample :
  is_record (Get page_array_properties (lit "properties")) = false
  /\ page_properties page_array_properties = VArray [VString (lit "x")]
  /\ page_properties page_array_properties <> VObject []
  /\ page_info page_array_properties = Normal (lit "- A 📝 0: x").
Proof.
  split; [vm_compute; reflexivity|].
  split; [vm_compute; reflexivity|].
  split; [vm_compute; discriminate|].
  vm_compute; reflexivity.
Qed.

Lemma page_fields_resolved_witness :
  page_tags page_scalar_fields = VArray []
  /\ page_properties page_scalar_fields = VObject [].
Proof.
  destruct (page_fields_resolved page_scalar_fields) as (_ & Ht & Hp & _).
  split.
  - apply Ht. right. reflexivity.
  - apply Hp. right. reflexivity.
Defined.

Lemma list_pages_sorted_by_line_witness :
  exists sorted : list jsstring,
    fst (list_pages (answers (VArray two_close_names)) sample_client true
                    fresh) =
    Normal {| isError := None;
              content :=
                [{| type := lit "text";
                    text := join newline
                      ([lit "LogSeq Pages:"; lit ""] ++
                       sorted ++
                       [lit "";
                        lit "📊 Statistics:";
                        lit "- Total pages shown: " ++
                          digits_of_nat
                            (List.length [lit "- a 📅"; lit "- a !"]);
                        lit "- Journal pages: " ++
                        digits_of_nat
                          (List.length
                             (filter (hidden true) two_close_names))])
                 |}] |}
    /\ Sorted js_le sorted
    /\ Permutation [lit "- a 📅"; lit "- a !"] sorted
    /\ (forall other, Sorted js_le other ->
                      Permutation [lit "- a 📅"; lit "- a !"] other ->
                      other = sorted).
Proof.
  apply (list_pages_sorted_by_line (answers (VArray two_close_names))
           sample_client true fresh (st := 200) (pages := two_close_names)).
  - reflexivity.
  - vm_compute. reflexivity.
Defined.

(** The order is that of the lines, not that of the names: the name [a]
    is smaller than the name [a !], yet the line of [a !] comes first,
    because the calendar mark follows the space after [a]. *)
Example sorted_by_line_not_by_name :
  js_lt (lit "a") (lit "a !") = true
  /\ fst (list_pages (answers (VArray two_close_names)) sample_client true
                     fresh) =
     Normal (text_result
       (join newline [lit "LogSeq Pages:";
                      lit "";
                      lit "- a !";
                      lit "- a 📅";
                      lit "";
                      lit "📊 Statistics:";
                      lit "- Total pages shown: 2";
                      lit "- Journal pages: 0"])).
Proof. split; vm_compute; reflexivity. Qed.


(** Flags of every kind through the whole handler: the number 1, a
    string that is not empty and [true] make a journal page; [false], 0,
    the empty string, [null] and no flag at all do not. *)
Example list_pages_flag_values :
  fst (list_pages (answers (VArray flagged_pages)) sample_client false fresh)
  = Normal (text_result
      (join newline [lit "LogSeq Pages:";
                     lit "";
                     lit "- empty";
                     lit "- false";
                     lit "- none";
                     lit "- null";
                     lit "- zero";
                     lit "";
                     lit "📊 Statistics:";
                     lit "- Total pages shown: 5";
                     lit "- Journal pages: 3 (hidden)"]))
  /\ fst (list_pages (answers (VArray flagged_pages)) sample_client true fresh)
  = Normal (text_result
      (join newline [lit "LogSeq Pages:";
                     lit "";
                     lit "- empty";
                     lit "- false";
                     lit "- none";
                     lit "- null";
                     lit "- one 📅";
                     lit "- text 📅";
                     lit "- true 📅";
                     lit "- zero";
                     lit "";
                     lit "📊 Statistics:";
                     lit "- Total pages shown: 8";
                     lit "- Journal pages: 0"])).
Proof. split; vm_compute; reflexivity. Qed.

(** The values the flag can hold, one by one. *)
Example journal_flag_values :
  map (fun flag => truthy (isJournal
                     (VObject [(lit "name", VString (lit "P"));
                               (lit "journal?", flag)])))
      [VBool true; VNumber 1%Z; VString (lit "yes"); VArray []; VObject [];
       VBool false; VNumber 0%Z; VString (lit ""); VNull]
  = [true; true; true; true; true; false; false; false; false]
  /\ truthy (isJournal (page_named "P")) = false.
Proof. split; vm_compute; reflexivity. Qed.

(* ================================================================== *)
(** ** More on the API client *)
(* ================================================================== *)

Section ClientResults.

Context {num : Type} `{JSNumber num}.
Variable net : @http_request num -> @http_outcome num.

#[local] Opaque lit digits_of_nat digits_of_N.

(** X1.  For every client, [listPages] makes exactly one call: a POST to
    [http://{host}:{port}/api] whose body is [{method:
    "logseq.Editor.getAllPages"}] and nothing else, with the two headers
    and the timeout of 6000 milliseconds. *)
Theorem listPages_one_call (client : LogSeq) (w : @world num) :
  calls (snd (listPages net client w)) =
  calls w ++
  [Post (lit "http://" ++ host client ++ lit ":" ++
         digits_of_N (port client) ++ lit "/api")
        (VObject [(lit "method", VString (lit "logseq.Editor.getAllPages"))])
        [(lit "Authorization", lit "Bearer " ++ apiKey client);
         (lit "Content-Type", lit "application/json")]
        6000].
Proof. rewrite listPages_run. reflexivity. Qed.

Lemma filter_errors_client_log (client : LogSeq) (start failed : jsstring)
      (body : @value num) (o : @http_outcome num) :
  filter is_error_entry (client_log client start body failed o) =
  match o with
  | Resolved _ _ => []
  | Rejected e => [Log error (failed ++ message e)]
  end.
Proof. destruct o; reflexivity. Qed.

(** X2.  [createPage] hands back the body of the response untouched and
    logs nothing at error level when the call succeeds; when the call
    fails it logs [Error creating page: <message>] once and throws the
    very error it caught. *)
Theorem createPage_propagates (client : LogSeq) (title content : jsstring)
        (w : @world num) :
  (forall st d,
      net (createPage_request client title content) = Resolved st d ->
      fst (createPage net client title content w) = Normal d
      /\ filter is_error_entry
           (log (snd (createPage net client title content w))) =
         filter is_error_entry (log w))
  /\ (forall e,
      net (createPage_request client title content) = Rejected e ->
      fst (createPage net client title content w) = Throw e
      /\ filter is_error_entry
           (log (snd (createPage net client title content w))) =
         filter is_error_entry (log w) ++
         [Log error (lit "Error creating page: " ++ message e)]).
Proof.
  split; [intros st d Hnet|intros e Hnet];
    rewrite createPage_run, Hnet; simpl;
    rewrite filter_app, filter_errors_client_log;
    split; try reflexivity.
  now rewrite app_nil_r.
Qed.

(** X3.  [listPages] hands back the body of the response untouched and
    logs nothing at error level when the call succeeds; when the call
    fails it logs [Error listing pages: <message>] once and throws the
    very error it caught. *)
Theorem listPages_propagates (client : LogSeq) (w : @world num) :
  (forall st d,
      net (listPages_request client) = Resolved st d ->
      fst (listPages net client w) = Normal d
      /\ filter is_error_entry (log (snd (listPages net client w))) =
         filter is_error_entry (log w))
  /\ (forall e,
      net (listPages_request client) = Rejected e ->
      fst (listPages net client w) = Throw e
      /\ filter is_error_entry (log (snd (listPages net client w))) =
         filter is_error_entry (log w) ++
         [Log error (lit "Error listing pages: " ++ message e)]).
Proof.
  split; [intros st d Hnet|intros e Hnet];
    rewrite listPages_run, Hnet; simpl;
    rewrite filter_app, filter_errors_client_log;
    split; try reflexivity.
  now rewrite app_nil_r.
Qed.

End ClientResults.

Lemma createPage_propagates_witness :
  (fst (createPage (answers (VBool true)) sample_client (lit "T") (lit "C")
                   fresh) = Normal (VBool true)
   /\ filter is_error_entry
        (log (snd (createPage (answers (VBool true)) sample_client
                              (lit "T") (lit "C") fresh))) =
      filter is_error_entry (log fresh))
  /\ (fst (createPage unreachable sample_client (lit "T") (lit "C") fresh)
      = Throw (Error (lit "Network Error"))
      /\ filter is_error_entry
           (log (snd (createPage unreachable sample_client (lit "T")
                                 (lit "C") fresh))) =
         filter is_error_entry (log fresh) ++
         [Log error (lit "Error creating page: " ++
                     message (Error (lit "Network Error")))]).
Proof.
  split.
  - apply (proj1 (createPage_propagates (answers (VBool true)) sample_client
                    (lit "T") (lit "C") fresh) 200 (VBool true)).
    reflexivity.
  - apply (proj2 (createPage_propagates unreachable sample_client
                    (lit "T") (lit "C") fresh) (Error (lit "Network Error"))).
    reflexivity.
Defined.

Lemma listPages_propagates_witness :
  (fst (listPages (answers (VArray three_pages)) sample_client fresh)
   = Normal (VArray three_pages)
   /\ filter is_error_entry
        (log (snd (listPages (answers (VArray three_pages)) sample_client
                             fresh))) =
      filter is_error_entry (log fresh))
  /\ (fst (listPages unreachable sample_client fresh)
      = Throw (Error (lit "Network Error"))
      /\ filter is_error_entry
           (log (snd (listPages unreachable sample_client fresh))) =
         filter is_error_entry (log fresh) ++
         [Log error (lit "Error listing pages: " ++
                     message (Error (lit "Network Error")))]).
Proof.
  split.
  - apply (proj1 (listPages_propagates (answers (VArray three_pages))
                    sample_client fresh) 200 (VArray three_pages)).
    reflexivity.
  - apply (proj2 (listPages_propagates unreachable sample_client fresh)
                 (Error (lit "Network Error"))).
    reflexivity.
Defined.

(* ================================================================== *)
(** ** More on the handlers *)
(* ================================================================== *)

Section HandlerEffects.

Context {num : Type} `{JSNumber num}.
Variable net : @http_request num -> @http_outcome num.

#[local] Opaque lit digits_of_nat digits_of_N.
#[local] Arguments join : simpl never.
#[local] Arguments Array_sort : simpl never.
#[local] Arguments summary : simpl never.
#[local] Arguments stringify_text : simpl never.
#[local] Arguments client_log : simpl never.

(** The loop makes no call and only appends to the log, also when it is
    cut short by a throw. *)
Lemma for_of_frame (inc : bool) (pages : list (@value num)) :
  forall (acc : listing) (w : @world num),
    calls (snd (for_of inc acc pages w)) = calls w
    /\ exists l, log (snd (for_of inc acc pages w)) = log w ++ l.
Proof.
  induction pages as [|page pages IH]; intros acc w; simpl.
  - split; [reflexivity|]. exists []. now rewrite app_nil_r.
  - unfold bind.
    destruct (page_kinds inc page)
      as [(Hi & Hh & Hd)|[(Hi & Hh & Hd)|(Hi & Hh & Hd)]].
    + rewrite page_step_invalid by assumption.
      destruct (IH acc (World (log w ++ [invalid_page_entry page]) (calls w)))
        as (Hc & l & Hl).
      split; [exact Hc|]. exists (invalid_page_entry page :: l).
      rewrite Hl. simpl. now rewrite <- app_assoc.
    + rewrite page_step_hidden by assumption. apply IH.
    + rewrite page_step_displayed by assumption.
      destruct (page_info page) as [line|e]; simpl.
      * apply IH.
      * split; [reflexivity|]. exists []. now rewrite app_nil_r.
Qed.

(** X4.  [list_pages] lets no exception out: whatever the upstream
    does, it returns a result, it has made exactly one call (the one of
    [listPages]), and the log it was given is still there, with new lines
    after it. *)
Theorem list_pages_contained (client : LogSeq) (inc : bool)
        (w : @world num) :
  (exists r, fst (list_pages net client inc w) = Normal r)
  /\ calls (snd (list_pages net client inc w)) =
     calls w ++ [listPages_request client]
  /\ exists l, log (snd (list_pages net client inc w)) = log w ++ l.
Proof.
  unfold list_pages, bind, try_catch, logger_info, logger_debug,
    logger_error, write_log, ret, throw.
  rewrite listPages_run.
  destruct (net (listPages_request client)) as [st d|e]; simpl.
  - destruct (Array_isArray d); simpl.
    + match goal with
      | |- context [for_of inc ?a ?ps ?w0] =>
        destruct (for_of_frame inc ps a w0) as (Hc & l & Hl);
        destruct (for_of inc a ps w0) as [[r|e] w1]
      end; simpl in *; rewrite Hc, Hl; simpl.
      * split; [eexists; reflexivity|]. split; [reflexivity|].
        rewrite <- !app_assoc. eexists. reflexivity.
      * split; [eexists; reflexivity|]. split; [reflexivity|].
        rewrite <- !app_assoc. eexists. reflexivity.
    + split; [eexists; reflexivity|]. split; [reflexivity|].
      rewrite <- !app_assoc. eexists. reflexivity.
  - split; [eexists; reflexivity|]. split; [reflexivity|].
    rewrite <- !app_assoc. eexists. reflexivity.
Qed.

(** X5.  [create_page] lets no exception out either: it returns a
    result, it has made exactly one call (the one of [createPage]), and
    the log it was given is still there, with new lines after it. *)
Theorem create_page_contained (client : LogSeq) (title content : jsstring)
        (w : @world num) :
  (exists r, fst (create_page net client title content w) = Normal r)
  /\ calls (snd (create_page net client title content w)) =
     calls w ++ [createPage_request client title content]
  /\ exists l, log (snd (create_page net client title content w)) =
               log w ++ l.
Proof.
  unfold create_page, bind, try_catch, logger_info, logger_debug,
    logger_error, write_log, ret, throw.
  rewrite createPage_run.
  destruct (net (createPage_request client title content)) as [st d|e]; simpl.
  - split; [eexists; reflexivity|]. split; [reflexivity|].
    rewrite <- !app_assoc. eexists. reflexivity.
  - split; [eexists; reflexivity|]. split; [reflexivity|].
    rewrite <- !app_assoc. eexists. reflexivity.
Qed.

(** X6.  When the call of [listPages] fails, [list_pages] returns
    [isError: true] with the text [Failed to list pages: <message>], the
    message being that of the error of the client, and the failure is
    logged twice at error level: once by the client, once by the
    handler. *)
Theorem list_pages_upstream_failure (client : LogSeq) (inc : bool)
        (w : @world num) (e : js_error) :
  net (listPages_request client) = Rejected e ->
  fst (list_pages net client inc w) =
    Normal {| isError := Some true;
              content := [{| type := lit "text";
                             text := lit "Failed to list pages: " ++
                                     message e |}] |}
  /\ filter is_error_entry (log (snd (list_pages net client inc w))) =
     filter is_error_entry (log w) ++
     [Log error (lit "Error listing pages: " ++ message e);
      Log error (lit "Failed to list pages: " ++ message e)].
Proof.
  intros Hnet.
  unfold list_pages, bind, try_catch, logger_info, logger_debug,
    logger_error, write_log, ret, throw.
  rewrite listPages_run, Hnet. simpl. split; [reflexivity|].
  rewrite !filter_app, filter_errors_client_log. simpl.
  now rewrite app_nil_r, <- app_assoc.
Qed.

End HandlerEffects.

Lemma list_pages_upstream_failure_witness :
  fst (list_pages unreachable sample_client false fresh) =
    Normal {| isError := Some true;
              content := [{| type := lit "text";
                             text := lit "Failed to list pages: " ++
                                     message (Error (lit "Network Error"))
                           |}] |}
  /\ filter is_error_entry
       (log (snd (list_pages unreachable sample_client false fresh))) =
     filter is_error_entry (log fresh) ++
     [Log error (lit "Error listing pages: " ++
                 message (Error (lit "Network Error")));
      Log error (lit "Failed to list pages: " ++
                 message (Error (lit "Network Error")))].
Proof.
  apply (list_pages_upstream_failure unreachable sample_client false fresh
           (e := Error (lit "Network Error"))).
  reflexivity.
Defined.

(* ================================================================== *)
(** ** More on the loop and the lines of [list_pages] *)
(* ================================================================== *)

Section Listing.

Context {num : Type} `{JSNumber num}.
Variable net : @http_request num -> @http_outcome num.

#[local] Opaque lit digits_of_nat digits_of_N.

Lemma kinds_partition (inc : bool) (pages : list (@value num)) :
  (List.length (filter (displayed inc) pages) +
   List.length (filter (hidden inc) pages) +
   List.length (filter invalid_page pages) = List.length pages)%nat.
Proof.
  induction pages as [|p pages IH]; simpl; [reflexivity|].
  destruct (page_kinds inc p)
    as [(Hi & Hh & Hd)|[(Hi & Hh & Hd)|(Hi & Hh & Hd)]];
    rewrite Hi, Hh, Hd; simpl; lia.
Qed.

Lemma for_of_normal_lines (inc : bool) (pages : list (@value num))
      (acc l : listing) (w : @world num) :
  fst (for_of inc acc pages w) = Normal l ->
  exists lines, composed_lines (filter (displayed inc) pages) = Normal lines.
Proof.
  intros Hl.
  destruct (composed_lines (filter (displayed inc) pages)) as [lines|e] eqn:Hc.
  - now exists lines.
  - rewrite (for_of_throws inc pages acc w Hc) in Hl. discriminate.
Qed.

(** X7.  When the loop runs to its end, every element of the sequence
    has been accounted for exactly once: it gave a line, or it was counted
    as a hidden journal page, or it was rejected by the guard and logged.
    The shown count is the number of lines, and the three numbers add up
    to the length of the sequence. *)
Theorem for_of_accounts (inc : bool) (pages : list (@value num))
        (l : listing) (w : @world num) :
  fst (for_of inc no_pages pages w) = Normal l ->
  List.length (pagesInfo l) = totalPages l
  /\ (totalPages l + journalPages l +
      List.length (filter invalid_page pages) = List.length pages)%nat
  /\ log (snd (for_of inc no_pages pages w)) =
     log w ++ map invalid_page_entry (filter invalid_page pages).
Proof.
  intros Hl.
  destruct (for_of_normal_lines inc pages no_pages w Hl) as (lines & Hc).
  rewrite (for_of_listing inc pages no_pages w Hc) in *. simpl in *.
  injection Hl as <-. simpl.
  split; [reflexivity|]. split; [|reflexivity].
  rewrite (composed_lines_length _ Hc).
  apply kinds_partition.
Qed.

(** X8.  With [include_journals = true] no element is hidden: when the
    loop runs to its end, every element that passes the guard has a line,
    journal pages included, and the journal counter is still 0. *)
Theorem for_of_included (pages : list (@value num)) (l : listing)
        (w : @world num) :
  fst (for_of true no_pages pages w) = Normal l ->
  totalPages l =
    List.length (filter (fun p => negb (invalid_page p)) pages)
  /\ journalPages l = 0%nat.
Proof.
  intros Hl.
  destruct (for_of_normal_lines true pages no_pages w Hl) as (lines & Hc).
  rewrite (for_of_listing true pages no_pages w Hc) in Hl. simpl in Hl.
  injection Hl as <-. simpl.
  rewrite hidden_when_included, (composed_lines_length _ Hc). split.
  - f_equal. apply filter_ext. intros p. unfold displayed.
    now rewrite andb_false_r, andb_true_r.
  - reflexivity.
Qed.

(** X9.  When no element is displayed (the sequence is empty, or holds
    nothing but hidden journal pages and rejected elements), the result is
    still a listing: the header, two empty lines, and the statistics with
    a shown count of 0. *)
Theorem list_pages_nothing_shown (client : LogSeq) (inc : bool)
        (w : @world num) (st : N) (pages : list (@value num)) :
  net (listPages_request client) = Resolved st (VArray pages) ->
  filter (displayed inc) pages = [] ->
  fst (list_pages net client inc w) =
  Normal {| isError := None;
            content :=
              [{| type := lit "text";
                  text := join newline
                    [lit "LogSeq Pages:";
                     lit "";
                     lit "";
                     lit "📊 Statistics:";
                     lit "- Total pages shown: 0";
                     if inc
                     then lit "- Journal pages: " ++
                          digits_of_nat
                            (List.length (filter (hidden inc) pages))
                     else lit "- Journal pages: " ++
                          digits_of_nat
                            (List.length (filter (hidden inc) pages)) ++
                          lit " (hidden)"] |}] |}.
Proof.
  intros Hnet Hnone.
  assert (Hc : composed_lines (filter (displayed inc) pages) = Normal [])
    by now rewrite Hnone.
  destruct (list_pages_listing net client inc w Hnet Hc) as (-> & _).
  reflexivity.
Qed.

End Listing.

Lemma for_of_accounts_witness :
  List.length [lit "- Projects 🏷️ work, 2024 📝 status: open, rank: 2";
               lit "- Inbox"] = 2%nat
  /\ (2 + 1 + List.length (filter invalid_page shaped_pages)
      = List.length shaped_pages)%nat
  /\ log (snd (for_of false no_pages shaped_pages fresh)) =
     log fresh ++ map invalid_page_entry (filter invalid_page shaped_pages).
Proof.
  apply (for_of_accounts false shaped_pages
           (l := {| pagesInfo :=
                      [lit "- Projects 🏷️ work, 2024 📝 status: open, rank: 2";
                       lit "- Inbox"];
                    totalPages := 2; journalPages := 1 |}) fresh).
  vm_compute. reflexivity.
Defined.

Lemma for_of_included_witness :
  3%nat = List.length (filter (fun p => negb (invalid_page p)) shaped_pages)
  /\ 0%nat = 0%nat.
Proof.
  apply (for_of_included shaped_pages
           (l := {| pagesInfo :=
                      [lit "- Projects 🏷️ work, 2024 📝 status: open, rank: 2";
                       lit "- 2024-01-01 📅";
                       lit "- Inbox"];
                    totalPages := 3; journalPages := 0 |}) fresh).
  vm_compute. reflexivity.
Defined.

Lemma list_pages_nothing_shown_witness :
  fst (list_pages (answers (VArray [journal_named "2024-01-01"; VNull]))
                  sample_client false fresh) =
  Normal {| isError := None;
            content :=
              [{| type := lit "text";
                  text := join newline
                    [lit "LogSeq Pages:";
                     lit "";
                     lit "";
                     lit "📊 Statistics:";
                     lit "- Total pages shown: 0";
                     lit "- Journal pages: " ++
                     digits_of_nat
                       (List.length
                          (filter (hidden false)
                                  [journal_named "2024-01-01"; VNull])) ++
                     lit " (hidden)"] |}] |}.
Proof.
  apply (list_pages_nothing_shown
           (answers (VArray [journal_named "2024-01-01"; VNull]))
           sample_client false fresh (st := 200)
           (pages := [journal_named "2024-01-01"; VNull])).
  - reflexivity.
  - vm_compute. reflexivity.
Defined.

(* ================================================================== *)
(** ** The line of a page *)
(* ================================================================== *)

Section Lines.

Context {num : Type} `{JSNumber num}.

#[local] Opaque lit digits_of_nat digits_of_N.

Lemma Array_join_strings (sep : jsstring) (ss : list jsstring) :
  Array_join (@ToString num _) sep (map VString ss) = Normal (join sep ss).
Proof.
  induction ss as [|s ss IH]; [reflexivity|].
  destruct ss as [|s' ss]; [reflexivity|].
  change (Array_join ToString sep (map VString (s :: s' :: ss)))
    with (cbind (Normal s) (fun x =>
            cbind (Array_join (@ToString num _) sep (map VString (s' :: ss)))
                  (fun r => Normal (x ++ sep ++ r)))).
  rewrite IH. reflexivity.
Qed.

Lemma render_entries_strings (ps : list (jsstring * jsstring)) :
  render_entries (map (fun kv => (fst kv, @VString num (snd kv))) ps) =
  Normal (map (fun kv => fst kv ++ lit ": " ++ snd kv) ps).
Proof.
  induction ps as [|[k v] ps IH]; simpl; [reflexivity|].
  now rewrite IH.
Qed.

(** X10.  The line of a page whose tags are strings and whose property
    values are strings: [- <name>], then the calendar mark when the page
    is a journal page, then the label and the tags separated by a comma
    and a space when there is a tag, then the label and the [key: value]
    pairs separated likewise when there is a property; the parts are
    separated by one space.  An empty array of tags and an empty mapping
    of properties add nothing to the line. *)
Theorem page_info_format (page : @value num) (name_text : jsstring)
        (tags : list jsstring) (props : list (jsstring * jsstring)) :
  ToString (page_name page) = Normal name_text ->
  page_tags page = VArray (map VString tags) ->
  Object_entries (page_properties page) =
    map (fun kv => (fst kv, VString (snd kv))) props ->
  page_info page =
  Normal (join (lit " ")
            ([lit "- " ++ name_text] ++
             (if truthy (Get page (lit "journal?")) then [lit "📅"] else []) ++
             (match tags with
              | [] => []
              | _ => [lit "🏷️ " ++ join (lit ", ") tags]
              end) ++
             (match props with
              | [] => []
              | _ => [lit "📝 " ++
                      join (lit ", ")
                        (map (fun kv => fst kv ++ lit ": " ++ snd kv) props)]
              end))).
Proof.
  intros Hname Htags Hprops.
  unfold page_info, Object_keys.
  rewrite Hname, Htags, Hprops, truthy_isJournal. simpl elements.
  rewrite Array_join_strings, render_entries_strings, !length_map.
  destruct (truthy (Get page (lit "journal?")));
    destruct tags as [|t tags]; destruct props as [|p props];
    reflexivity.
Qed.

Lemma ToString_not_object (v : @value num) :
  not_object v = true -> exists s, ToString v = Normal s.
Proof. destruct v; simpl; try discriminate; intros _; eexists; reflexivity. Qed.

Lemma Array_join_plain (sep : jsstring) (xs : list (@value num)) :
  forallb not_object xs = true ->
  exists s, Array_join ToString sep xs = Normal s.
Proof.
  induction xs as [|x xs IH]; simpl; intros Hp; [eexists; reflexivity|].
  apply andb_prop in Hp as [Hx Hxs].
  destruct (IH Hxs) as (r & Hr).
  assert (Hs : exists s, match x with
                         | VUndefined | VNull => Normal []
                         | _ => ToString x
                         end = Normal s).
  { destruct x; simpl in *; try discriminate; eexists; reflexivity. }
  destruct Hs as (s & Hs). rewrite Hs. simpl.
  destruct xs; [eexists; reflexivity|].
  change (exists s0, cbind (Array_join ToString sep (v :: xs))
                       (fun r0 => Normal (s ++ sep ++ r0)) = Normal s0).
  rewrite Hr. eexists. reflexivity.
Qed.

Lemma render_entries_plain (es : list (jsstring * @value num)) :
  forallb (fun kv => not_object (snd kv)) es = true ->
  exists ps, render_entries es = Normal ps.
Proof.
  induction es as [|[k v] es IH]; simpl; intros Hp; [eexists; reflexivity|].
  apply andb_prop in Hp as [Hv Hes].
  destruct (ToString_not_object v Hv) as (s & ->).
  destruct (IH Hes) as (ps & ->). eexists. reflexivity.
Qed.

Lemma plain_page_info (page : @value num) :
  plain_page page = true -> exists line, page_info page = Normal line.
Proof.
  unfold plain_page, page_info. intros Hp.
  apply andb_prop in Hp as [Hp Hprops]. apply andb_prop in Hp as [Hname Htags].
  destruct (ToString_not_object _ Hname) as (n & ->). simpl.
  destruct (Array_join_plain (lit ", ") _ Htags) as (t & ->).
  destruct (render_entries_plain _ Hprops) as (ps & ->).
  destruct (0 <? List.length (elements (page_tags page)))%nat;
    destruct (0 <? List.length (Object_keys (page_properties page)))%nat;
    simpl; eexists; reflexivity.
Qed.

Lemma plain_composed_lines (pages : list (@value num)) :
  forallb plain_page pages = true ->
  exists lines, composed_lines pages = Normal lines.
Proof.
  induction pages as [|p pages IH]; simpl; intros Hp; [eexists; reflexivity|].
  apply andb_prop in Hp as [Hp Hps].
  destruct (plain_page_info p Hp) as (line & ->).
  destruct (IH Hps) as (lines & ->). eexists. reflexivity.
Qed.

End Lines.

Section PlainListing.

Context {num : Type} `{JSNumber num}.
Variable net : @http_request num -> @http_outcome num.

(** X11.  When the upstream answers with an array in which every
    displayed page has a name, tags and property values that are all
    [null], booleans, numbers or strings (or absent), [list_pages] returns
    a listing and not an error, whatever else the array holds. *)
Theorem list_pages_plain_succeeds (client : LogSeq) (inc : bool)
        (w : @world num) (st : N) (pages : list (@value num)) :
  net (listPages_request client) = Resolved st (VArray pages) ->
  forallb plain_page (filter (displayed inc) pages) = true ->
  exists t,
    fst (list_pages net client inc w) =
    Normal {| isError := None;
              content := [{| type := lit "text"; text := t |}] |}.
Proof.
  intros Hnet Hp.
  destruct (plain_composed_lines _ Hp) as (lines & Hc).
  destruct (list_pages_listing net client inc w Hnet Hc) as (-> & _).
  eexists. reflexivity.
Qed.

End PlainListing.

Lemma page_info_format_witness :
  page_info page_tagged =
  Normal (join (lit " ")
            ([lit "- " ++ lit "Ideas"] ++
             (if truthy (Get page_tagged (lit "journal?"))
              then [lit "📅"] else []) ++
             [lit "🏷️ " ++ join (lit ", ") [lit "a"; lit "b"]] ++
             [])).
Proof.
  apply (page_info_format page_tagged (name_text := lit "Ideas")
           [lit "a"; lit "b"] []); reflexivity.
Defined.

Example page_info_tagged : page_info page_tagged = Normal (lit "- Ideas 🏷️ a, b").
Proof. vm_compute. reflexivity. Qed.

Lemma list_pages_plain_succeeds_witness :
  exists t,
    fst (list_pages (answers (VArray shaped_pages)) sample_client false fresh)
    = Normal {| isError := None;
                content := [{| type := lit "text"; text := t |}] |}.
Proof.
  apply (list_pages_plain_succeeds (answers (VArray shaped_pages))
           sample_client false fresh (st := 200) (pages := shaped_pages)).
  - reflexivity.
  - vm_compute. reflexivity.
Defined.

(* ================================================================== *)
(** ** What a conversion can throw *)
(* ================================================================== *)

Section Conversions.

Context {num : Type} `{JSNumber num}.
Variable net : @http_request num -> @http_outcome num.

#[local] Opaque lit digits_of_nat digits_of_N.

(** Induction on values, with the hypothesis for every element of an
    array. *)
Lemma value_elements_ind (P : @value num -> Prop) :
  P VUndefined -> P VNull -> (forall b, P (VBool b)) ->
  (forall n, P (VNumber n)) -> (forall s, P (VString s)) ->
  (forall xs, Forall P xs -> P (VArray xs)) ->
  (forall fs, P (VObject fs)) ->
  forall v, P v.
Proof.
  intros Hu Hn Hb Hnum Hs Ha Ho.
  fix IH 1.
  intros [| |b|n|s|xs|fs];
    [exact Hu|exact Hn|apply Hb|apply Hnum|apply Hs| |apply Ho].
  apply Ha.
  refine ((fix go (l : list (@value num)) : Forall P l :=
             match l with
             | [] => Forall_nil P
             | x :: r => Forall_cons x (IH x) (go r)
             end) xs).
Qed.

Lemma Array_join_throws (str : @value num -> completion jsstring)
      (sep : jsstring) (E : js_error) (xs : list (@value num)) :
  Forall (fun x => forall e, str x = Throw e -> e = E) xs ->
  forall e, Array_join str sep xs = Throw e -> e = E.
Proof.
  induction 1 as [|x xs Hx Hxs IH]; intros e; [discriminate|].
  change (Array_join str sep (x :: xs))
    with (cbind (match x with
                 | VUndefined | VNull => Normal []
                 | _ => str x
                 end)
                (fun s => match xs with
                          | [] => Normal s
                          | _ => cbind (Array_join str sep xs)
                                       (fun r => Normal (s ++ sep ++ r))
                          end)).
  destruct (match x with VUndefined | VNull => Normal [] | _ => str x end)
    as [s|e'] eqn:Hs; simpl.
  - destruct xs as [|y ys]; [discriminate|].
    destruct (Array_join str sep (y :: ys)) as [r|e'] eqn:Hr; simpl;
      [discriminate|].
    intros [= <-]. now apply IH.
  - intros [= <-]. apply Hx. destruct x; try discriminate; assumption.
Qed.

(** The only exception [String(v)] throws on a parsed value. *)
Lemma ToString_throws (v : @value num) :
  forall e, ToString v = Throw e -> e = TypeError_primitive.
Proof.
  induction v as [| | | | |xs IH|fs] using value_elements_ind;
    intros e; simpl; try discriminate.
  - intros Hj. eapply Array_join_throws; [exact IH|exact Hj].
  - destruct (own_property (lit "toString") fs); [|discriminate].
    now intros [= <-].
Qed.

Lemma render_entries_throws (es : list (jsstring * @value num)) :
  forall e, render_entries es = Throw e -> e = TypeError_primitive.
Proof.
  induction es as [|[k v] es IH]; intros e; simpl; [discriminate|].
  destruct (ToString v) as [s|e'] eqn:Hs; simpl.
  - destruct (render_entries es) as [r|e']; simpl; [discriminate|].
    intros [= <-]. now apply IH.
  - intros [= <-]. eapply ToString_throws. exact Hs.
Qed.

Lemma page_info_throws (page : @value num) :
  forall e, page_info page = Throw e -> e = TypeError_primitive.
Proof.
  intros e. unfold page_info.
  destruct (ToString (page_name page)) as [n|e'] eqn:Hn; simpl;
    [|intros [= <-]; eapply ToString_throws; exact Hn].
  destruct (0 <? List.length (elements (page_tags page)))%nat.
  - destruct (Array_join ToString (lit ", ") (elements (page_tags page)))
      as [t|e'] eqn:Ht; simpl.
    + destruct (0 <? List.length (Object_keys (page_properties page)))%nat;
        [|discriminate].
      destruct (render_entries (Object_entries (page_properties page)))
        as [ps|e'] eqn:Hp; simpl; [discriminate|].
      intros [= <-]. eapply render_entries_throws. exact Hp.
    + intros [= <-].
      eapply Array_join_throws; [|exact Ht].
      apply Forall_forall. intros x _. apply ToString_throws.
  - simpl.
    destruct (0 <? List.length (Object_keys (page_properties page)))%nat;
      [|discriminate].
    destruct (render_entries (Object_entries (page_properties page)))
      as [ps|e'] eqn:Hp; simpl; [discriminate|].
    intros [= <-]. eapply render_entries_throws. exact Hp.
Qed.

Lemma composed_lines_throws (pages : list (@value num)) :
  forall e, composed_lines pages = Throw e -> e = TypeError_primitive.
Proof.
  induction pages as [|p pages IH]; intros e; simpl; [discriminate|].
  destruct (page_info p) as [line|e'] eqn:Hp; simpl.
  - destruct (composed_lines pages) as [r|e']; simpl; [discriminate|].
    intros [= <-]. now apply IH.
  - intros [= <-]. eapply page_info_throws. exact Hp.
Qed.

(** X12.  When the upstream answers with an array, the only error
    result [list_pages] can return is the one of a failed conversion to
    string: its text is [Failed to list pages: Cannot convert object to
    primitive value], the message of the error thrown for an object
    that has a key named [toString]. *)
Theorem list_pages_array_error (client : LogSeq) (inc : bool)
        (w : @world num) (st : N) (pages : list (@value num))
        (r : tool_result) :
  net (listPages_request client) = Resolved st (VArray pages) ->
  fst (list_pages net client inc w) = Normal r ->
  isError r = Some true ->
  r = {| isError := Some true;
         content :=
           [{| type := lit "text";
               text := lit "Failed to list pages: Cannot convert object to primitive value"
            |}] |}.
Proof.
  intros Hnet Hr He.
  destruct (composed_lines (filter (displayed inc) pages)) as [lines|e] eqn:Hc.
  - destruct (list_pages_listing net client inc w Hnet Hc) as (Hl & _).
    rewrite Hl in Hr. injection Hr as <-. discriminate.
  - rewrite (list_pages_conversion_throws net client inc w Hnet Hc) in Hr.
    injection Hr as <-.
    assert (e = TypeError_primitive) as ->
      by (eapply composed_lines_throws; exact Hc).
    vm_compute. reflexivity.
Qed.

End Conversions.

Lemma list_pages_array_error_witness :
  error_result
    (lit "Failed to list pages: Cannot convert object to primitive value") =
  {| isError := Some true;
     content :=
       [{| type := lit "text";
           text := lit "Failed to list pages: Cannot convert object to primitive value"
        |}] |}.
Proof.
  apply (list_pages_array_error
           (answers (VArray [VObject [(lit "name",
                                       VObject [(lit "toString", VNull)])]]))
           sample_client false fresh (st := 200)
           (pages := [VObject [(lit "name",
                                VObject [(lit "toString", VNull)])]])).
  - reflexivity.
  - vm_compute. reflexivity.
  - reflexivity.
Defined.

(* ================================================================== *)
(** ** The order of the upstream sequence *)
(* ================================================================== *)

Section Order.

Context {num : Type} `{JSNumber num}.
Variables net net' : @http_request num -> @http_outcome num.

#[local] Opaque lit digits_of_nat digits_of_N.

Lemma filter_permutation {A} (f : A -> bool) (l l' : list A) :
  Permutation l l' -> Permutation (filter f l) (filter f l').
Proof.
  induction 1 as [|x l l' Hp IH|x y l|l l' l'' H1 IH1 H2 IH2]; simpl.
  - constructor.
  - destruct (f x); [now apply perm_skip|assumption].
  - destruct (f x), (f y); try reflexivity. apply perm_swap.
  - now transitivity (filter f l').
Qed.

Lemma composed_lines_permutation (pages pages' : list (@value num)) :
  Permutation pages pages' ->
  forall lines, composed_lines pages = Normal lines ->
  exists lines', composed_lines pages' = Normal lines'
                 /\ Permutation lines lines'.
Proof.
  induction 1 as [|x l l' Hp IH|x y l|l l' l'' H1 IH1 H2 IH2];
    intros lines Hl; simpl in *.
  - exists lines. split; [assumption|reflexivity].
  - destruct (page_info x) as [a|e]; [|discriminate]. simpl in *.
    destruct (composed_lines l) as [r|e]; [|discriminate].
    injection Hl as <-. destruct (IH r eq_refl) as (r' & -> & Hr).
    exists (a :: r'). split; [reflexivity|now apply perm_skip].
  - destruct (page_info y) as [b|e]; [|discriminate]. simpl in *.
    destruct (page_info x) as [a|e]; [|discriminate]. simpl in *.
    destruct (composed_lines l) as [r|e]; [|discriminate].
    injection Hl as <-. exists (a :: b :: r).
    split; [reflexivity|apply perm_swap].
  - destruct (IH1 lines Hl) as (m & Hm & Hpm).
    destruct (IH2 m Hm) as (m' & Hm' & Hpm').
    exists m'. split; [assumption|now transitivity m].
Qed.

(** X13.  The listing does not depend on the order in which the
    upstream returns the pages: when the lines of the displayed pages can
    be composed, two answers that hold the same elements in different
    orders give the same result. *)
Theorem list_pages_order_independent (client : LogSeq) (inc : bool)
        (w w' : @world num) (st st' : N) (pages pages' : list (@value num))
        (lines : list jsstring) :
  net (listPages_request client) = Resolved st (VArray pages) ->
  net' (listPages_request client) = Resolved st' (VArray pages') ->
  Permutation pages pages' ->
  composed_lines (filter (displayed inc) pages) = Normal lines ->
  fst (list_pages net client inc w) = fst (list_pages net' client inc w').
Proof.
  intros Hnet Hnet' Hperm Hlines.
  destruct (composed_lines_permutation
              (filter_permutation (displayed inc) Hperm) Hlines)
    as (lines' & Hlines' & Hpl).
  destruct (list_pages_listing net client inc w Hnet Hlines) as (-> & _).
  destruct (list_pages_listing net' client inc w' Hnet' Hlines') as (-> & _).
  rewrite <- (Permutation_length Hpl).
  rewrite <- (Permutation_length (filter_permutation (hidden inc) Hperm)).
  assert (Hs : Array_sort lines' = Array_sort lines).
  { apply Array_sort_unique; [apply Array_sort_sorted|].
    rewrite Hpl. apply Array_sort_perm. }
  now rewrite Hs.
Qed.

End Order.

Lemma list_pages_order_independent_witness :
  fst (list_pages (answers (VArray shaped_pages)) sample_client false fresh)
  = fst (list_pages (answers (VArray shaped_pages_shuffled)) sample_client
                    false fresh).
Proof.
  apply (list_pages_order_independent
           (answers (VArray shaped_pages))
           (answers (VArray shaped_pages_shuffled))
           sample_client false fresh fresh (st := 200) (st' := 200)
           (pages := shaped_pages) (pages' := shaped_pages_shuffled)
           (lines := [lit "- Projects 🏷️ work, 2024 📝 status: open, rank: 2";
                      lit "- Inbox"])).
  - reflexivity.
  - reflexivity.
  - unfold shaped_pages, shaped_pages_shuffled.
    match goal with
    | |- Permutation [?a; ?b; ?c; ?d] [?d; ?c; ?a; ?b] =>
      apply (perm_trans (l' := [d; a; b; c]));
        [symmetry; apply (Permutation_cons_append [a; b; c] d)|];
      apply perm_skip;
      symmetry; apply (Permutation_cons_append [a; b] c)
    end.
  - vm_compute. reflexivity.
Defined.

(* ================================================================== *)
(** ** The schema of [create_page] and the start-up *)
(* ================================================================== *)

Section Startup.

Context {num : Type} `{JSNumber num}.

#[local] Opaque lit digits_of_nat digits_of_N.

(** X14.  The schema of [create_page] raises no issue exactly when the
    title and the content are both strings, the title of 1 to 1000 code
    units and the content of 1 to 1,000,000 code units. *)
Theorem create_page_schema_accepts (title content : @value num) :
  create_page_issues title content = [] <->
  exists t c,
    title = VString t /\ content = VString c
    /\ 1 <= js_length t <= 1000 /\ 1 <= js_length c <= 1000000.
Proof.
  split.
  - intros Hi.
    destruct title as [| | | |t| |];
      try (apply app_eq_nil in Hi as [Hi _]; discriminate).
    destruct content as [| | | |c| |];
      try (apply app_eq_nil in Hi as [_ Hi]; discriminate).
    exists t, c. split; [reflexivity|]. split; [reflexivity|].
    exact (proj1 (@create_page_issues_none num t c) Hi).
  - intros (t & c & -> & -> & Ht & Hc).
    exact (proj2 (@create_page_issues_none num t c) (conj Ht Hc)).
Qed.

(** X15.  Without a token the server does not start: when the variable
    [LOGSEQ_API_TOKEN] is not set, or set to the empty string, the module
    throws [LOGSEQ_API_TOKEN environment variable required] before
    anything is logged and before any call. *)
Theorem startup_requires_token (token : option jsstring) (w : @world num) :
  token = None \/ token = Some [] ->
  startup token w = (Throw token_required, w)
  /\ message token_required =
     lit "LOGSEQ_API_TOKEN environment variable required".
Proof. intros [-> | ->]; split; reflexivity. Qed.

(** X16.  With a token that is not empty the server builds its client
    from the token alone: the host and the port are the defaults, so every
    call goes to [http://127.0.0.1:12315/api], with the token as the
    bearer of the [Authorization] header; no call is made at start-up. *)
Theorem startup_client (key : jsstring) (w : @world num) :
  key <> [] ->
  exists client,
    fst (startup (Some key) w) = Normal client
    /\ apiKey client = key
    /\ api_url client = lit "http://127.0.0.1:12315/api"
    /\ getHeaders client =
       [(lit "Authorization", lit "Bearer " ++ key);
        (lit "Content-Type", lit "application/json")]
    /\ calls (snd (startup (Some key) w)) = calls w.
Proof.
  intros Hk. destruct key as [|c key]; [congruence|].
  eexists. split; [reflexivity|].
  split; [reflexivity|]. split; [vm_compute; reflexivity|].
  split; reflexivity.
Qed.

End Startup.

Lemma create_page_schema_accepts_witness :
  create_page_issues (@VString Z (lit "Title")) (VString (lit "Body")) = [].
Proof.
  apply (proj2 (create_page_schema_accepts (@VString Z (lit "Title"))
                  (VString (lit "Body")))).
  exists (lit "Title"), (lit "Body").
  split; [reflexivity|]. split; [reflexivity|].
  split; vm_compute; split; discriminate.
Defined.

Lemma startup_requires_token_witness :
  startup (Some []) fresh = (Throw token_required, fresh)
  /\ message token_required =
     lit "LOGSEQ_API_TOKEN environment variable required".
Proof.
  apply (startup_requires_token (token := Some []) fresh).
  right. reflexivity.
Defined.

Lemma startup_client_witness :
  exists client,
    fst (startup (Some (lit "secret")) fresh) = Normal client
    /\ apiKey client = lit "secret"
    /\ api_url client = lit "http://127.0.0.1:12315/api"
    /\ getHeaders client =
       [(lit "Authorization", lit "Bearer " ++ lit "secret");
        (lit "Content-Type", lit "application/json")]
    /\ calls (snd (startup (Some (lit "secret")) fresh)) = calls fresh.
Proof.
  apply (startup_client (key := lit "secret") fresh).
  vm_compute. discriminate.
Defined.

(* ================================================================== *)
(** ** The token and the log *)
(* ================================================================== *)

Section Token.

Context {num : Type} `{JSNumber num}.
Variables net1 net2 : @http_request num -> @http_outcome num.

#[local] Opaque lit digits_of_nat digits_of_N.
#[local] Arguments join : simpl never.
#[local] Arguments Array_sort : simpl never.
#[local] Arguments summary : simpl never.
#[local] Arguments stringify_text : simpl never.
#[local] Arguments client_log : simpl never.

Lemma api_url_same (c1 c2 : LogSeq) :
  host c1 = host c2 -> port c1 = port c2 -> api_url c1 = api_url c2.
Proof. unfold api_url. now intros -> ->. Qed.

Lemma client_log_same (c1 c2 : LogSeq) (start failed : jsstring)
      (body : @value num) (o : @http_outcome num) :
  host c1 = host c2 -> port c1 = port c2 ->
  client_log c1 start body failed o = client_log c2 start body failed o.
Proof.
  intros Hh Hp. unfold client_log. now rewrite (api_url_same c1 c2 Hh Hp).
Qed.

(** The loop reads nothing of the calls made so far. *)
Lemma for_of_calls_irrelevant (inc : bool) (pages : list (@value num)) :
  forall (acc : listing) (lg : list log_entry) (cs cs' : list http_request),
    fst (for_of inc acc pages (World lg cs)) =
    fst (for_of inc acc pages (World lg cs'))
    /\ log (snd (for_of inc acc pages (World lg cs))) =
       log (snd (for_of inc acc pages (World lg cs'))).
Proof.
  induction pages as [|page pages IH]; intros acc lg cs cs'; simpl.
  - split; reflexivity.
  - unfold bind.
    destruct (page_kinds inc page)
      as [(Hi & Hh & Hd)|[(Hi & Hh & Hd)|(Hi & Hh & Hd)]].
    + rewrite !page_step_invalid by assumption. simpl. apply IH.
    + rewrite !page_step_hidden by assumption. apply IH.
    + rewrite !page_step_displayed by assumption.
      destruct (page_info page) as [line|e]; simpl.
      * apply IH.
      * split; reflexivity.
Qed.

(** X17.  [create_page] writes nothing of the token to the log: two
    clients that differ in their token only, and get the same answer from
    the upstream, return the same result and leave the same log. *)
Theorem create_page_log_ignores_token (c1 c2 : LogSeq)
        (title content : jsstring) (w : @world num) :
  host c1 = host c2 -> port c1 = port c2 ->
  net1 (createPage_request c1 title content) =
  net2 (createPage_request c2 title content) ->
  fst (create_page net1 c1 title content w) =
  fst (create_page net2 c2 title content w)
  /\ log (snd (create_page net1 c1 title content w)) =
     log (snd (create_page net2 c2 title content w)).
Proof.
  intros Hh Hp Hnet.
  unfold create_page, bind, try_catch, logger_info, logger_debug,
    logger_error, write_log, ret, throw.
  rewrite !createPage_run, Hnet.
  rewrite (client_log_same c1 c2 _ _ _ _ Hh Hp).
  destruct (net2 (createPage_request c2 title content)) as [st d|e]; simpl;
    split; reflexivity.
Qed.

(** X18.  [list_pages] writes nothing of the token to the log: two
    clients that differ in their token only, and get the same answer from
    the upstream, return the same result and leave the same log. *)
Theorem list_pages_log_ignores_token (c1 c2 : LogSeq) (inc : bool)
        (w : @world num) :
  host c1 = host c2 -> port c1 = port c2 ->
  net1 (listPages_request c1) = net2 (listPages_request c2) ->
  fst (list_pages net1 c1 inc w) = fst (list_pages net2 c2 inc w)
  /\ log (snd (list_pages net1 c1 inc w)) =
     log (snd (list_pages net2 c2 inc w)).
Proof.
  intros Hh Hp Hnet.
  unfold list_pages, bind, try_catch, logger_info, logger_debug,
    logger_error, write_log, ret, throw.
  rewrite !listPages_run, Hnet.
  rewrite (client_log_same c1 c2 _ _ _ _ Hh Hp).
  destruct (net2 (listPages_request c2)) as [st d|e]; simpl;
    [|split; reflexivity].
  destruct (Array_isArray d); simpl; [|split; reflexivity].
  match goal with
  | |- context [for_of inc ?a ?ps (World ?lg ?cs)] =>
    match goal with
    | |- context [for_of inc a ps (World lg ?cs')] =>
      assert_fails (constr_eq cs cs');
      destruct (for_of_calls_irrelevant inc ps a lg cs cs') as (Hf & Hl);
      destruct (for_of inc a ps (World lg cs)) as [[l1|e1] [lg1 k1]];
      destruct (for_of inc a ps (World lg cs')) as [[l2|e2] [lg2 k2]]
    end
  end; simpl in *; try discriminate.
  - injection Hf as ->. subst lg2. split; reflexivity.
  - injection Hf as ->. subst lg2. split; reflexivity.
Qed.

End Token.

Lemma create_page_log_ignores_token_witness :
  fst (create_page (answers VNull) sample_client (lit "T") (lit "C") fresh) =
  fst (create_page (answers VNull) other_client (lit "T") (lit "C") fresh)
  /\ log (snd (create_page (answers VNull) sample_client (lit "T") (lit "C")
                           fresh)) =
     log (snd (create_page (answers VNull) other_client (lit "T") (lit "C")
                           fresh)).
Proof.
  apply (create_page_log_ignores_token (answers VNull) (answers VNull)
           sample_client other_client (lit "T") (lit "C") fresh);
    reflexivity.
Defined.

Lemma list_pages_log_ignores_token_witness :
  fst (list_pages (answers (VArray shaped_pages)) sample_client false fresh) =
  fst (list_pages (answers (VArray shaped_pages)) other_client false fresh)
  /\ log (snd (list_pages (answers (VArray shaped_pages)) sample_client false
                          fresh)) =
     log (snd (list_pages (answers (VArray shaped_pages)) other_client false
                          fresh)).
Proof.
  apply (list_pages_log_ignores_token (answers (VArray shaped_pages))
           (answers (VArray shaped_pages)) sample_client other_client false
           fresh);
    reflexivity.
Defined.

(* ================================================================== *)
(** ** The server with the client inline *)
(* ================================================================== *)

Section InlineServer.

Context {num : Type} `{JSNumber num}.
Variable net : @http_request num -> @http_outcome num.

#[local] Opaque lit digits_of_nat digits_of_N.
#[local] Arguments stringify_text : simpl never.
#[local] Arguments client_log : simpl never.

(** X19.  In the server with the client inline, [create_page] returns
    the same text as the other handler when the call succeeds, but lets
    the error of the client out when the call fails: it logs [Failed to
    create page: <message>] after the line of the client and throws the
    error again, so no result is returned. *)
Theorem inline_create_page_rethrows (client : LogSeq)
        (title content : jsstring) (w : @world num) :
  (forall st d,
      net (createPage_request client title content) = Resolved st d ->
      fst (ServerJs.create_page net client title content w) =
      Normal {| isError := None;
                content := [{| type := lit "text";
                               text := lit "Successfully created page '" ++
                                       title ++ lit "'" |}] |})
  /\ (forall e,
      net (createPage_request client title content) = Rejected e ->
      fst (ServerJs.create_page net client title content w) = Throw e
      /\ filter is_error_entry
           (log (snd (ServerJs.create_page net client title content w))) =
         filter is_error_entry (log w) ++
         [Log error (lit "Error creating page: " ++ message e);
          Log error (lit "Failed to create page: " ++ message e)]).
Proof.
  split; [intros st d Hnet|intros e Hnet];
    unfold ServerJs.create_page, bind, try_catch, logger_info, logger_debug,
      logger_error, write_log, ret, throw;
    rewrite createPage_run, Hnet; simpl; [reflexivity|].
  split; [reflexivity|].
  rewrite !filter_app, filter_errors_client_log. simpl.
  now rewrite app_nil_r, <- app_assoc.
Qed.

Lemma inline_startup_run (key : jsstring) (w : @world num) :
  key <> [] ->
  ServerJs.startup (Some key) w =
  (Normal {| apiKey := key; host := lit "127.0.0.1"; port := 12315 |},
   World (log w ++
          [Log info (lit "Found LOGSEQ_API_TOKEN in environment");
           Log debug (lit "API Token starts with: " ++
                      ServerJs.substring_0_5 key ++ lit "...");
           Log debug (lit "LogSeq client initialized with host=" ++
                      lit "127.0.0.1" ++ lit ", port=" ++
                      digits_of_N 12315)])
         (calls w)).
Proof.
  intros Hk. destruct key as [|c key]; [congruence|].
  unfold ServerJs.startup, LogSeq_new, bind, logger_info, logger_debug,
    write_log, ret.
  cbn [env_value truthy negb log calls].
  now rewrite <- !app_assoc.
Qed.

(** X20.  In the server with the client inline, the start-up writes the
    first five code units of the token to the log and nothing more of it:
    two tokens that begin with the same five code units leave the same
    log.  The client it builds is the one of the other server. *)
Theorem inline_startup_logs_prefix (key1 key2 : jsstring) (w : @world num) :
  key1 <> [] -> key2 <> [] ->
  firstn 5 key1 = firstn 5 key2 ->
  log (snd (ServerJs.startup (Some key1) w)) =
  log (snd (ServerJs.startup (Some key2) w))
  /\ log (snd (ServerJs.startup (Some key1) w)) =
     log w ++
     [Log info (lit "Found LOGSEQ_API_TOKEN in environment");
      Log debug (lit "API Token starts with: " ++ firstn 5 key1 ++ lit "...");
      Log debug (lit "LogSeq client initialized with host=" ++
                 lit "127.0.0.1" ++ lit ", port=" ++ digits_of_N 12315)]
  /\ fst (ServerJs.startup (Some key1) w) = fst (startup (Some key1) w).
Proof.
  intros H1 H2 Hp.
  rewrite !inline_startup_run by assumption.
  unfold ServerJs.substring_0_5. rewrite Hp.
  split; [reflexivity|]. split; [reflexivity|].
  destruct key1 as [|c k]; [congruence|]. reflexivity.
Qed.

End InlineServer.

Lemma inline_create_page_rethrows_witness :
  fst (ServerJs.create_page (answers VNull) sample_client (lit "T") (lit "C")
                            fresh) =
  Normal {| isError := None;
            content := [{| type := lit "text";
                           text := lit "Successfully created page '" ++
                                   lit "T" ++ lit "'" |}] |}
  /\ (fst (ServerJs.create_page unreachable sample_client (lit "T") (lit "C")
                                fresh) = Throw (Error (lit "Network Error"))
      /\ filter is_error_entry
           (log (snd (ServerJs.create_page unreachable sample_client
                                           (lit "T") (lit "C") fresh))) =
         filter is_error_entry (log fresh) ++
         [Log error (lit "Error creating page: " ++
                     message (Error (lit "Network Error")));
          Log error (lit "Failed to create page: " ++
                     message (Error (lit "Network Error")))]).
Proof.
  split.
  - apply (proj1 (inline_create_page_rethrows (answers VNull) sample_client
                    (lit "T") (lit "C") fresh) 200 VNull).
    reflexivity.
  - apply (proj2 (inline_create_page_rethrows unreachable sample_client
                    (lit "T") (lit "C") fresh) (Error (lit "Network Error"))).
    reflexivity.
Defined.

Lemma inline_startup_logs_prefix_witness :
  log (snd (ServerJs.startup (Some (lit "secret-one")) fresh)) =
  log (snd (ServerJs.startup (Some (lit "secret-two")) fresh))
  /\ log (snd (ServerJs.startup (Some (lit "secret-one")) fresh)) =
     log fresh ++
     [Log info (lit "Found LOGSEQ_API_TOKEN in environment");
      Log debug (lit "API Token starts with: " ++
                 firstn 5 (lit "secret-one") ++ lit "...");
      Log debug (lit "LogSeq client initialized with host=" ++
                 lit "127.0.0.1" ++ lit ", port=" ++ digits_of_N 12315)]
  /\ fst (ServerJs.startup (Some (lit "secret-one")) fresh) =
     fst (startup (Some (lit "secret-one")) fresh).
Proof.
  apply (inline_startup_logs_prefix (key1 := lit "secret-one")
           (key2 := lit "secret-two") fresh).
  - vm_compute. discriminate.
  - vm_compute. discriminate.
  - vm_compute. reflexivity.
Defined.

(* ================================================================== *)
(** ** The handler of [list_pages] with the client inline *)
(* ================================================================== *)

Section InlineListing.

Context {num : Type} `{JSNumber num}.
Variable net : @http_request num -> @http_outcome num.
Variable num_positive : num -> bool.
Variable string_positive : jsstring -> bool.
Variable not_iterable : @value num -> js_error.
Variable cannot_read : @value num -> jsstring -> js_error.
Variable not_a_function : @value num -> jsstring -> js_error.

#[local] Opaque lit digits_of_nat digits_of_N.
#[local] Arguments join : simpl never.
#[local] Arguments Array_sort : simpl never.
#[local] Arguments stringify_text : simpl never.
#[local] Arguments client_log : simpl never.

Lemma inline_page_step (inc : bool) (info : list jsstring)
      (page : @value num) (w : @world num) :
  ServerJs.nullish page = false ->
  ServerJs.page_step num_positive string_positive cannot_read not_a_function
                     inc info page w =
  if negb (truthy (Get page (lit "journal?"))) || inc
  then (cbind ((ServerJs.page_info num_positive string_positive
     not_a_function) page) (fun line => Normal (info ++ [line])), w)
  else (Normal info, w).
Proof.
  intros Hn. unfold ServerJs.page_step.
  rewrite truthy_isJournal.
  destruct page; try discriminate;
    destruct (truthy (Get _ (lit "journal?"))), inc; simpl;
    try reflexivity;
    unfold bind, lift, ret;
    match goal with
    | |- context [ServerJs.page_info ?a ?b ?c ?p] =>
      destruct (ServerJs.page_info a b c p); reflexivity
    end.
Qed.

Lemma inline_for_of_lines (inc : bool) (pages : list (@value num)) :
  forallb (fun p => negb (ServerJs.nullish p)) pages = true ->
  forall (info : list jsstring) (w : @world num),
    (ServerJs.for_of num_positive string_positive cannot_read
     not_a_function) inc info pages w =
    (cbind ((ServerJs.composed_lines num_positive string_positive
     not_a_function)
              (filter (fun p => negb (truthy (Get p (lit "journal?"))) || inc)
                      pages))
           (fun lines => Normal (info ++ lines)), w).
Proof.
  induction pages as [|p pages IH]; intros Hnn info w; simpl.
  - unfold ret. now rewrite app_nil_r.
  - simpl in Hnn. apply andb_prop in Hnn as [Hp Hps].
    apply negb_true_iff in Hp.
    unfold bind. rewrite (inline_page_step inc info p w Hp).
    destruct (negb (truthy (Get p (lit "journal?"))) || inc); simpl.
    + destruct (ServerJs.page_info num_positive string_positive
                  not_a_function p) as [line|e]; simpl; [|reflexivity].
      rewrite (IH Hps).
      destruct (ServerJs.composed_lines num_positive string_positive
                  not_a_function _) as [r|e]; simpl; [|reflexivity].
      now rewrite <- app_assoc.
    + now rewrite (IH Hps).
Qed.

Lemma join_snoc (sep x : jsstring) (parts : list jsstring) :
  parts <> [] -> join sep (parts ++ [x]) = join sep parts ++ sep ++ x.
Proof.
  induction parts as [|a parts IH]; [congruence|]. intros _.
  destruct parts as [|b parts]; [reflexivity|].
  change (join sep ((a :: b :: parts) ++ [x]))
    with (a ++ sep ++ join sep ((b :: parts) ++ [x])).
  rewrite IH by discriminate.
  change (join sep (a :: b :: parts)) with (a ++ sep ++ join sep (b :: parts)).
  now rewrite <- !app_assoc.
Qed.

Lemma inline_page_info_journal (page : @value num) (line : jsstring) :
  (ServerJs.page_info num_positive string_positive
     not_a_function) page = Normal line ->
  truthy (Get page (lit "journal?")) = true ->
  exists base, line = base ++ lit " [journal]".
Proof.
  unfold ServerJs.page_info. rewrite truthy_isJournal.
  intros Hl Hj. rewrite Hj in Hl.
  destruct (ToString (page_name page)) as [n|e]; [|discriminate].
  simpl in Hl.
  destruct (ServerJs.length_positive num_positive string_positive
              (ServerJs.page_tags page)) as [has|e]; [|discriminate].
  simpl in Hl.
  match type of Hl with
  | cbind ?c _ = _ => destruct c as [parts|e] eqn:Hparts; [|discriminate]
  end.
  simpl in Hl.
  match type of Hl with
  | cbind ?c _ = _ => destruct c as [parts'|e] eqn:Hparts'; [|discriminate]
  end.
  simpl in Hl. injection Hl as <-.
  exists (join (lit " ") parts').
  rewrite join_snoc; [reflexivity|].
  assert (Hne : parts <> []).
  { destruct has.
    - destruct (ServerJs.join_tags not_a_function (ServerJs.page_tags page));
        [|discriminate].
      simpl in Hparts. injection Hparts as <-. discriminate.
    - injection Hparts as <-. discriminate. }
  destruct (0 <? _)%nat.
  - destruct (render_entries _); [|discriminate].
    simpl in Hparts'. injection Hparts' as <-.
    destruct parts; [congruence|discriminate].
  - injection Hparts' as <-. assumption.
Qed.

Lemma inline_lines_length (pages : list (@value num)) :
  forall lines, (ServerJs.composed_lines num_positive string_positive
     not_a_function) pages = Normal lines ->
                List.length lines = List.length pages.
Proof.
  induction pages as [|p pages IH]; simpl; intros lines Hl.
  - now injection Hl as <-.
  - destruct (ServerJs.page_info num_positive string_positive not_a_function p);
      [|discriminate]. simpl in Hl.
    destruct (ServerJs.composed_lines num_positive string_positive
                not_a_function pages); [|discriminate].
    injection Hl as <-. simpl. f_equal. now apply IH.
Qed.

Lemma inline_lines_journal (pages : list (@value num)) :
  forall lines,
    (ServerJs.composed_lines num_positive string_positive
     not_a_function) pages = Normal lines ->
    Forall2 (fun p line =>
               truthy (Get p (lit "journal?")) = true ->
               exists base, line = base ++ lit " [journal]") pages lines.
Proof.
  induction pages as [|p pages IH]; simpl; intros lines Hl.
  - injection Hl as <-. constructor.
  - destruct (ServerJs.page_info num_positive string_positive not_a_function p)
      as [line|e] eqn:Hp; [|discriminate]. simpl in Hl.
    destruct (ServerJs.composed_lines num_positive string_positive
                not_a_function pages) as [r|e]; [|discriminate].
    injection Hl as <-. constructor; [|now apply IH].
    now apply inline_page_info_journal.
Qed.

(** X21.  In the server with the client inline, [list_pages] classifies
    the elements of an upstream array (none of them [null]) by the
    truthiness of their [journal?] field: with [include_journals] false
    the elements with a truthy field are left out and every other element
    has a line; with [include_journals] true every element has a line;
    the line of an element with a truthy field ends in [[journal]].  The
    text is the header, the sorted lines and [Total pages: <number of
    lines>] with the note on journal pages.  When a line cannot be
    composed the handler throws the error instead of returning a
    result. *)
Theorem inline_list_pages_journal_flag (client : LogSeq) (inc : bool)
        (w : @world num) (st : N) (pages : list (@value num)) :
  let journal := fun p : @value num => truthy (Get p (lit "journal?")) in
  let shown := filter (fun p => negb (journal p) || inc) pages in
  net (listPages_request client) = Resolved st (VArray pages) ->
  forallb (fun p => negb (ServerJs.nullish p)) pages = true ->
  (forall lines,
      (ServerJs.composed_lines num_positive string_positive
     not_a_function) shown = Normal lines ->
      Forall2 (fun p line => journal p = true ->
                             exists base, line = base ++ lit " [journal]")
              shown lines
      /\ fst ((ServerJs.list_pages net num_positive string_positive
     not_iterable cannot_read not_a_function) client inc w) =
         Normal {| isError := None;
                   content :=
                     [{| type := lit "text";
                         text := (lit "LogSeq Pages:" ++ newline ++ newline) ++
                                 join newline (Array_sort lines) ++
                                 (newline ++ lit "Total pages: " ++
                                  digits_of_nat (List.length shown)) ++
                                 (if inc
                                  then lit " (including journal pages)"
                                  else lit " (excluding journal pages)")
                      |}] |})
  /\ (forall e,
      (ServerJs.composed_lines num_positive string_positive
     not_a_function) shown = Throw e ->
      fst ((ServerJs.list_pages net num_positive string_positive
     not_iterable cannot_read not_a_function) client inc w) = Throw e).
Proof.
  intros journal shown Hnet Hnn. subst journal shown.
  assert (Hrun : forall c,
    (ServerJs.composed_lines num_positive string_positive
     not_a_function)
      (filter (fun p => negb (truthy (Get p (lit "journal?"))) || inc) pages)
    = c ->
    fst ((ServerJs.list_pages net num_positive string_positive
     not_iterable cannot_read not_a_function) client inc w) =
    match c with
    | Normal lines =>
      Normal {| isError := None;
                content := [text_item (ServerJs.response inc
                                         (Array_sort lines))] |}
    | Throw e => Throw e
    end).
  { intros c Hc.
    unfold ServerJs.list_pages, bind, try_catch, lift,
      logger_info, logger_debug, logger_error, write_log, ret, throw.
    rewrite listPages_run, Hnet. simpl.
    rewrite (inline_for_of_lines inc pages Hnn), Hc.
    destruct c; reflexivity. }
  split.
  - intros lines Hlines. split; [now apply inline_lines_journal|].
    rewrite (Hrun _ Hlines). unfold ServerJs.response, text_item.
    rewrite Array_sort_length_eq.
    now rewrite (inline_lines_length _ Hlines).
  - intros e Hlines. now rewrite (Hrun _ Hlines).
Qed.

End InlineListing.

Lemma inline_list_pages_journal_flag_witness :
  (Forall2 (fun p line => truthy (Get p (lit "journal?")) = true ->
                          exists base, line = base ++ lit " [journal]")
           (filter (fun p => negb (truthy (Get p (lit "journal?"))) || false)
                   flagged_pages)
           [lit "- false"; lit "- zero"; lit "- empty"; lit "- null";
            lit "- none"; lit "- <unknown>"]
   /\ fst (ServerJs.list_pages (answers (VArray flagged_pages))
             sample_num_positive sample_string_positive sample_not_iterable
             sample_cannot_read sample_not_a_function
             sample_client false fresh) =
      Normal {| isError := None;
                content :=
                  [{| type := lit "text";
                      text := (lit "LogSeq Pages:" ++ newline ++ newline) ++
                              join newline
                                (Array_sort [lit "- false"; lit "- zero";
                                             lit "- empty"; lit "- null";
                                             lit "- none"; lit "- <unknown>"])
                              ++
                              (newline ++ lit "Total pages: " ++
                               digits_of_nat
                                 (List.length
                                    (filter
                                       (fun p =>
                                          negb (truthy
                                                  (Get p (lit "journal?")))
                                          || false)
                                       flagged_pages))) ++
                              lit " (excluding journal pages)" |}] |})
  /\ fst (ServerJs.list_pages (answers (VArray unconvertible_then_number))
            sample_num_positive sample_string_positive sample_not_iterable
            sample_cannot_read sample_not_a_function
            sample_client true fresh) = Throw TypeError_primitive.
Proof.
  split.
  - apply (proj1 (inline_list_pages_journal_flag
                    (answers (VArray flagged_pages))
                    sample_num_positive sample_string_positive
                    sample_not_iterable sample_cannot_read
                    sample_not_a_function
                    sample_client false fresh (st := 200)
                    (pages := flagged_pages) eq_refl eq_refl)).
    vm_compute. reflexivity.
  - apply (proj2 (inline_list_pages_journal_flag
                    (answers (VArray unconvertible_then_number))
                    sample_num_positive sample_string_positive
                    sample_not_iterable sample_cannot_read
                    sample_not_a_function
                    sample_client true fresh (st := 200)
                    (pages := unconvertible_then_number) eq_refl eq_refl)).
    vm_compute. reflexivity.
Defined.

(** The same flags through the handler with the client inline, journal
    pages included: the string among the elements is listed as a page
    without a name. *)
Example inline_list_pages_flag_values :
  fst (ServerJs.list_pages (answers (VArray flagged_pages))
         sample_num_positive sample_string_positive sample_not_iterable
         sample_cannot_read sample_not_a_function
         sample_client true fresh) =
  Normal (text_result
    (join newline [lit "LogSeq Pages:";
                   lit "";
                   lit "- <unknown>";
                   lit "- empty";
                   lit "- false";
                   lit "- none";
                   lit "- null";
                   lit "- one [journal]";
                   lit "- text [journal]";
                   lit "- true [journal]";
                   lit "- zero"] ++
     newline ++ lit "Total pages: 9 (including journal pages)")).
Proof. vm_compute. reflexivity. Qed.
